(** * PulseNote feed-ranking engine

    A shallow embedding of class [PulseNoteAlgorithm]
    (src/pack-all/Pack-VP/Pack-VP/Pack-VP/popup.js) and the properties its
    specification states about it.

    Conventions of the embedding.
    - JavaScript numbers are modelled by their mathematical values:
      counters are naturals ([N]), millisecond timestamps are integers ([Z]),
      event measurements are rationals ([Q]) and scores are reals ([R]);
      rounding, NaN and the infinities of binary64 are outside the model.
    - A post is a record of the properties the engine reads; a property that
      may be missing ([undefined]) is an [option].
    - [Date.now()] is an argument [now] of every method that reads the
      clock: one reading per call of a public method.
    - The engine instance ([this]) is a record that is passed in and
      returned by the methods that mutate it.
    - [this.config] is assigned once, in the constructor; it is the constant
      [config].
    - An array is a value (a list), which is right as long as no array is
      reached from two places; module [Shared] embeds [generateFeed] and
      [testAlgorithmVariant] once more over a store of arrays, where the
      array of a cached feed is the array the caller is handed. *)

From Stdlib Require Import Reals Lra Lia ZArith NArith QArith List Ascii String Sorted.
From stdpp Require Import base option list strings pretty gmap.

Local Open Scope string_scope.
Local Open Scope list_scope.
Local Open Scope Z_scope.

(** ** JavaScript array and value helpers *)

Module Js.

Section Arrays.
Context {A : Type}.

(** [arr.slice(0, n)] for a count [n] (the sizes and limits of the engine
    are counts). *)
Definition slice0 (n : nat) (l : list A) : list A := firstn n l.

(** One step of a stable insertion: [x] stood before every element of [l]
    in the original array, so it moves right only past an element [y] the
    comparator orders strictly first ([cmp x y > 0]). *)
Fixpoint sort_insert (cmp : A -> A -> R) (x : A) (l : list A) : list A :=
  match l with
  | [] => [x]
  | y :: l' =>
      if Rlt_dec 0 (cmp x y) then y :: sort_insert cmp x l' else x :: l
  end.

(** [arr.sort(cmp)]: the sort of ECMAScript is stable, and for a
    consistent comparator its result is the one computed here. *)
Definition sort (cmp : A -> A -> R) (l : list A) : list A :=
  fold_right (sort_insert cmp) [] l.
End Arrays.

(** [arr.includes(s)] on an array of strings. *)
Definition includes (l : list string) (s : string) : bool :=
  existsb (String.eqb s) l.

(** [s.startsWith(p)]. *)
Definition startsWith (s p : string) : bool := String.prefix p s.

(** [a !== b] on values that are a string or [undefined]. *)
Definition strict_neq (a b : option string) : bool :=
  match a, b with
  | Some x, Some y => negb (String.eqb x y)
  | None, None => false
  | _, _ => true
  end.

(** [x || d] on a counter that may be missing: 0 and [undefined] are the
    falsy values. *)
Definition count_or (x : option N) (d : N) : N :=
  match x with
  | Some n => if N.eqb n 0 then d else n
  | None => d
  end.

(** [x || d] on a measurement that may be missing. *)
Definition num_or (x : option Q) (d : Q) : Q :=
  match x with
  | Some q => if Qeq_bool q 0 then d else q
  | None => d
  end.

(** [x !== false] on a boolean that may be missing. *)
Definition not_false (x : option bool) : bool :=
  match x with
  | Some false => false
  | _ => true
  end.

(** Truthiness of a boolean that may be missing. *)
Definition truthy (x : option bool) : bool :=
  match x with
  | Some true => true
  | _ => false
  end.

End Js.

(** ** Data model *)

Record EngagementCount := mkEngagementCount {
  likes : option N;
  reposts : option N;
  replies : option N
}.

(** The properties of a post that the engine reads, typed as
    netlify/functions/create-post.js builds a post: [id] and [anonymousId]
    are strings, [displayName] may be missing, the counters are counts.
    [createdAt] is the time value of [new Date(post.createdAt).getTime()]. *)
Record Post := mkPost {
  id : string;
  anonymousId : string;
  displayName : option string;
  content : string;
  createdAt : Z;
  engagementCount : option EngagementCount;
  impressionCount : option N
}.

(** [{...post, score: s}] *)
Record ScoredPost := mkScoredPost {
  sp_post : Post;
  score : R
}.

(** [{...post, trendScore: s}] *)
Record TrendingPost := mkTrendingPost {
  tp_post : Post;
  trendScore : R
}.

(** The duck-typed [metadata] argument of the two record methods: each of
    the keys the events carry is present with a value of its type, or
    absent. *)
Record Metadata := mkMetadata {
  md_postId : option string;
  md_userId : option string;
  md_type : option string;
  md_timestamp : option Z;
  md_viewDuration : option Q;
  md_scrollDepth : option Q;
  md_inViewport : option bool;
  md_deviceType : option string
}.

(** [{}], the default of [metadata]. *)
Definition no_metadata : Metadata :=
  mkMetadata None None None None None None None None.

(** An impression event. [imp_type] is present only when the metadata
    brought a [type] key. *)
Record Impression := mkImpression {
  imp_postId : string;
  imp_userId : string;
  imp_timestamp : Z;
  imp_viewDuration : Q;
  imp_scrollDepth : Q;
  imp_inViewport : bool;
  imp_deviceType : string;
  imp_type : option string
}.

(** An engagement event. The last four properties are present only when
    the metadata brought them. *)
Record Engagement := mkEngagement {
  eng_postId : string;
  eng_userId : string;
  eng_type : string;
  eng_timestamp : Z;
  eng_viewDuration : option Q;
  eng_scrollDepth : option Q;
  eng_inViewport : option bool;
  eng_deviceType : option string
}.

Record CacheEntry := mkCacheEntry {
  feed : list ScoredPost;
  timestamp : Z
}.

Record Preferences := mkPreferences {
  boostRecent : option bool
}.

(** [{}], the default of [userPreferences]. *)
Definition no_preferences : Preferences := mkPreferences None.

Record Config := mkConfig {
  impressionDecayFactor : R;
  engagementWeight : R;
  recencyWeight : R;
  diversityWeight : R;
  minImpressionThreshold : N;
  maxFeedSize : nat;
  impressionCacheTTL : Z
}.

Definition config : Config :=
  mkConfig 0.95 0.6 0.3 0.1 10 50 3600000.

(** The mutable fields of an engine instance. *)
Record Engine := mkEngine {
  userImpressions : gmap string (list Impression);
  userEngagements : gmap string (list Engagement);
  feedCache : gmap string CacheEntry
}.

(** The state the constructor builds. *)
Definition new_engine : Engine := mkEngine ∅ ∅ ∅.

(** ** The event sink

    [fetch] is the only access to the sink. Its outcome is decided by the
    environment: the promise rejects, or it resolves to a response with a
    status and a body that parses as JSON ([Some]) or does not ([None]). *)

Inductive FetchOutcome :=
| NetworkFailure (reason : string)
| Response (status : Z) (body : option string).

Inductive Error :=
| FetchError (reason : string)
| HttpError (status : Z)
| BodyError.

(** A settled promise. *)
Inductive Settled (A : Type) :=
| Fulfilled (a : A)
| Rejected (e : Error).
Arguments Fulfilled {A} a.
Arguments Rejected {A} e.

(** The sink as the engine sees it: the outcome of a POST of an event to an
    endpoint. *)
Definition EventSink (E : Type) := string -> E -> FetchOutcome.

(** Lines written by [console.error]: the message and the error. *)
Definition Console := list (string * Error).

(** [response.ok] *)
Definition response_ok (status : Z) : bool :=
  (200 <=? status) && (status <=? 299).

Section Persist.
Context {E : Type}.

(** The body shared by [persistImpression] and [persistEngagement]: the
    [try] block fulfils with the parsed body, and the [catch] block logs
    and rethrows. *)
Definition persist (endpoint failed : string) (sink : EventSink E)
    (event : E) : Settled string * Console :=
  let attempt :=
    match sink endpoint event with
    | NetworkFailure reason => Rejected (FetchError reason)
    | Response status body =>
        if negb (response_ok status) then Rejected (HttpError status)
        else match body with
             | Some json => Fulfilled json
             | None => Rejected BodyError
             end
    end in
  match attempt with
  | Fulfilled json => (Fulfilled json, [])
  | Rejected err => (Rejected err, [(failed, err)])
  end.

(** [promise.catch(err => console.error(msg, err))], detached: what the
    chain writes to the console once it has settled. *)
Definition catch_and_log (msg : string) (p : Settled string * Console)
    : Console :=
  match p with
  | (Fulfilled _, out) => out
  | (Rejected err, out) => out ++ [(msg, err)]
  end.
End Persist.

Definition persistImpression (sink : EventSink Impression)
    (impression : Impression) : Settled string * Console :=
  persist "/.netlify/functions/record-impression"
          "Impression persistence failed:" sink impression.

Definition persistEngagement (sink : EventSink Engagement)
    (engagement : Engagement) : Settled string * Console :=
  persist "/.netlify/functions/record-engagement"
          "Engagement persistence failed:" sink engagement.

(** ** Recording events *)

Definition getDeviceType (innerWidth : Z) : string :=
  if innerWidth <? 768 then "mobile"
  else if innerWidth <? 1024 then "tablet"
  else "desktop".

(** [{...base, ...metadata}] on an impression: every key the metadata has
    replaces the value of [base]. *)
Definition spread_impression (base : Impression) (metadata : Metadata)
    : Impression :=
  {| imp_postId := default (imp_postId base) (md_postId metadata);
     imp_userId := default (imp_userId base) (md_userId metadata);
     imp_timestamp := default (imp_timestamp base) (md_timestamp metadata);
     imp_viewDuration :=
       default (imp_viewDuration base) (md_viewDuration metadata);
     imp_scrollDepth :=
       default (imp_scrollDepth base) (md_scrollDepth metadata);
     imp_inViewport := default (imp_inViewport base) (md_inViewport metadata);
     imp_deviceType := default (imp_deviceType base) (md_deviceType metadata);
     imp_type :=
       match md_type metadata with
       | Some t => Some t
       | None => imp_type base
       end |}.

(** [{...base, ...metadata}] on an engagement. *)
Definition spread_engagement (base : Engagement) (metadata : Metadata)
    : Engagement :=
  let over {A} (m b : option A) : option A :=
    match m with Some v => Some v | None => b end in
  {| eng_postId := default (eng_postId base) (md_postId metadata);
     eng_userId := default (eng_userId base) (md_userId metadata);
     eng_type := default (eng_type base) (md_type metadata);
     eng_timestamp := default (eng_timestamp base) (md_timestamp metadata);
     eng_viewDuration :=
       over (md_viewDuration metadata) (eng_viewDuration base);
     eng_scrollDepth := over (md_scrollDepth metadata) (eng_scrollDepth base);
     eng_inViewport := over (md_inViewport metadata) (eng_inViewport base);
     eng_deviceType :=
       over (md_deviceType metadata) (eng_deviceType base) |}.

(** [if (!map.has(k)) map.set(k, []); map.get(k).push(x)] *)
Definition push_for {A : Type} (k : string) (x : A)
    (m : gmap string (list A)) : gmap string (list A) :=
  let m1 := match m !! k with
            | Some _ => m
            | None => <[k := []]> m
            end in
  alter (fun l => l ++ [x]) k m1.

(** [recordImpression(postId, userId, metadata = {})]. The result is the
    returned impression, the engine after the call, and what the detached
    persistence chain writes to the console. *)
Definition recordImpression (st : Engine) (now innerWidth : Z)
    (sink : EventSink Impression) (postId userId : string)
    (metadata : Metadata) : Impression * Engine * Console :=
  let impressionKey := (postId ++ "_" ++ userId)%string in
  let impression :=
    spread_impression
      {| imp_postId := postId;
         imp_userId := userId;
         imp_timestamp := now;
         imp_viewDuration := Js.num_or (md_viewDuration metadata) 0;
         imp_scrollDepth := Js.num_or (md_scrollDepth metadata) 0;
         imp_inViewport := Js.not_false (md_inViewport metadata);
         imp_deviceType := getDeviceType innerWidth;
         imp_type := None |}
      metadata in
  let st' :=
    {| userImpressions := push_for userId impression (userImpressions st);
       userEngagements := userEngagements st;
       feedCache := feedCache st |} in
  (impression, st',
   catch_and_log "Failed to persist impression:"
                 (persistImpression sink impression)).

(** [recordEngagement(postId, userId, engagementType, metadata = {})] *)
Definition recordEngagement (st : Engine) (now : Z)
    (sink : EventSink Engagement) (postId userId engagementType : string)
    (metadata : Metadata) : Engagement * Engine * Console :=
  let engagement :=
    spread_engagement
      {| eng_postId := postId;
         eng_userId := userId;
         eng_type := engagementType;
         eng_timestamp := now;
         eng_viewDuration := None;
         eng_scrollDepth := None;
         eng_inViewport := None;
         eng_deviceType := None |}
      metadata in
  let st' :=
    {| userImpressions := userImpressions st;
       userEngagements := push_for userId engagement (userEngagements st);
       feedCache := feedCache st |} in
  (engagement, st',
   catch_and_log "Failed to persist engagement:"
                 (persistEngagement sink engagement)).


(** ** Scoring *)

(** A counter as a JavaScript number. *)
Definition num (n : N) : R := IZR (Z.of_N n).

(** [post.engagementCount?.f || 0] *)
Definition counter (f : EngagementCount -> option N) (post : Post) : N :=
  Js.count_or (engagementCount post ≫= f) 0.

Definition calculateEngagementScore (post : Post) : R :=
  let likes := num (counter likes post) in
  let reposts := num (counter reposts post) in
  let replies := num (counter replies post) in
  ((likes * 1.0 + reposts * 2.0 + replies * 3.0)
   / Rmax 1 (likes + reposts + replies))%R.

(** [Math.exp] is the real exponential here. In binary64 it is 0 below
    about -745 and infinite above about 709, so what is stated of posts of
    every age holds of the code for the ages at which neither happens. *)
Definition calculateRecencyScore (now : Z) (post : Post) : R :=
  let ageInHours := (IZR (now - createdAt post) / 3600000)%R in
  exp (- ageInHours / 24).

Definition calculateDiversityScore (st : Engine) (post : Post)
    (userId : string) : R :=
  let userPosts := default [] (userEngagements st !! userId) in
  let sameAuthorEngagements :=
    List.filter (fun e => Js.startsWith (eng_postId e) (anonymousId post))
                userPosts in
  (1.0 / (1.0 + INR (length sameAuthorEngagements) * 0.1))%R.

Definition calculateImpressionScore (st : Engine) (now : Z) (post : Post)
    (userId : string) : R :=
  let userImpressions := default [] (userImpressions st !! userId) in
  let postImpressions :=
    List.filter (fun i => String.eqb (imp_postId i) (id post))
                userImpressions in
  (* [postImpressions.length > 0] is the case where a last element exists *)
  match last postImpressions with
  | Some lastImpression =>
      let timeSinceLastView :=
        (IZR (now - imp_timestamp lastImpression) / 3600000)%R in
      (impressionDecayFactor config ^ length postImpressions)%R
  | None => 1.0%R
  end.

Definition calculatePostScore (st : Engine) (now : Z) (post : Post)
    (userId : string) (userPreferences : Preferences) : R :=
  let engagementScore := calculateEngagementScore post in
  let recencyScore := calculateRecencyScore now post in
  let diversityScore := calculateDiversityScore st post userId in
  let impressionScore := calculateImpressionScore st now post userId in
  let finalScore :=
    (engagementScore * engagementWeight config
     + recencyScore * recencyWeight config
     + diversityScore * diversityWeight config
     + impressionScore * 0.0)%R in
  if Js.truthy (boostRecent userPreferences)
  then (finalScore * 1.2)%R
  else finalScore.

(** ** Feeds *)

(** The comparator [(a, b) => b.score - a.score]. *)
Definition by_score (a b : ScoredPost) : R := (score b - score a)%R.

(** The comparator [(a, b) => b.trendScore - a.trendScore]. *)
Definition by_trendScore (a b : TrendingPost) : R :=
  (trendScore b - trendScore a)%R.

Definition cacheKey_of (userId : string) : string :=
  ("feed_" ++ userId)%string.

Definition generateFeed (st : Engine) (now : Z) (allPosts : list Post)
    (userId : string) (userPreferences : Preferences)
    : list ScoredPost * Engine :=
  let cacheKey := cacheKey_of userId in
  let hit :=
    match feedCache st !! cacheKey with
    | Some cached =>
        if now - timestamp cached <? impressionCacheTTL config
        then Some (feed cached)
        else None
    | None => None
    end in
  match hit with
  | Some cachedFeed => (cachedFeed, st)
  | None =>
      let scoredPosts :=
        map (fun post =>
               mkScoredPost post
                 (calculatePostScore st now post userId userPreferences))
            allPosts in
      let rankedPosts :=
        Js.slice0 (maxFeedSize config) (Js.sort by_score scoredPosts) in
      (rankedPosts,
       {| userImpressions := userImpressions st;
          userEngagements := userEngagements st;
          feedCache :=
            <[cacheKey := mkCacheEntry rankedPosts now]> (feedCache st) |})
  end.

Definition calculateTrendScore (post : Post) (now : Z) : R :=
  let ageInHours := (IZR (now - createdAt post) / 3600000)%R in
  let engagementRate :=
    (num (counter likes post)
     / Rmax 1 (num (Js.count_or (impressionCount post) 1)))%R in
  (engagementRate * exp (- ageInHours / 6))%R.

(** [getTrendingPosts(allPosts, limit = 10)]; a missing [limit] is [None]. *)
Definition getTrendingPosts (now : Z) (allPosts : list Post)
    (limit : option nat) : list TrendingPost :=
  let limit := default 10%nat limit in
  Js.slice0 limit
    (Js.sort by_trendScore
       (map (fun post => mkTrendingPost post (calculateTrendScore post now))
            allPosts)).

(** [getRecommendedPosts(allPosts, userId, limit = 10)]. The cold-start
    branch returns objects that carry [trendScore], the other branch objects
    that carry [score]. *)
Definition getRecommendedPosts (st : Engine) (now : Z)
    (allPosts : list Post) (userId : string) (limit : option nat)
    : list TrendingPost + list ScoredPost :=
  let limit := default 10%nat limit in
  let userEngagements := default [] (userEngagements st !! userId) in
  if (length userEngagements =? 0)%nat then
    inl (getTrendingPosts now allPosts (Some limit))
  else
    let engagedPostIds := map eng_postId userEngagements in
    let engagedPosts :=
      List.filter (fun p => Js.includes engagedPostIds (id p)) allPosts in
    let recommended :=
      List.filter
        (fun post =>
           negb (Js.includes engagedPostIds (id post))
           && Js.strict_neq (displayName post)
                            (head engagedPosts ≫= displayName))
        allPosts in
    inr (Js.sort by_score
           (map (fun post =>
                   mkScoredPost post
                     (calculatePostScore st now post userId no_preferences))
                (Js.slice0 limit recommended))).

(** ** Popularity *)

Inductive Popularity := viral | trending | popular | normal.

Definition getPostPopularity (post : Post) : Popularity :=
  let impressions := Js.count_or (impressionCount post) 1 in
  let likes := counter likes post in
  let reposts := counter reposts post in
  let replies := counter replies post in
  let engagementRate :=
    (inject_Z (Z.of_N (likes + reposts + replies))
     / inject_Z (Z.of_N impressions))%Q in
  if Qlt_le_dec 0.1 engagementRate then viral
  else if Qlt_le_dec 0.05 engagementRate then trending
  else if Qlt_le_dec 0.02 engagementRate then popular
  else normal.


(** ** Notions used to state the properties *)

(** A list whose keys never increase from left to right. *)
Definition descending {A : Type} (key : A -> R) (l : list A) : Prop :=
  StronglySorted (fun a b => (key b <= key a)%R) l.

(** The cache entry [generateFeed] would serve to [userId] at [now]. *)
Definition fresh_entry (st : Engine) (now : Z) (userId : string)
    (entry : CacheEntry) : Prop :=
  feedCache st !! cacheKey_of userId = Some entry
  /\ now - timestamp entry < 3600000.

(** The engagement history of a user. *)
Definition history (st : Engine) (userId : string) : list Engagement :=
  default [] (userEngagements st !! userId).

(** The impression history of a user. *)
Definition impression_history (st : Engine) (userId : string)
    : list Impression :=
  default [] (userImpressions st !! userId).





(** The popularity rule in the words of the specification, read from the
    properties of the post: a counter that is missing counts as 0. *)
Definition spec_rate (post : Post) : Q :=
  let count (f : EngagementCount -> option N) : N :=
    default 0%N (engagementCount post ≫= f) in
  (inject_Z (Z.of_N (count likes + count reposts + count replies))
   / inject_Z (Z.max 1 (Z.of_N (default 0%N (impressionCount post)))))%Q.

(** The events seen as JavaScript objects: the value under a key. *)
Inductive Key :=
| k_postId | k_userId | k_timestamp | k_type
| k_viewDuration | k_scrollDepth | k_inViewport | k_deviceType.

Inductive Value :=
| VString (s : string)
| VTime (t : Z)
| VNumber (q : Q)
| VBoolean (b : bool).

Definition md_get (md : Metadata) (k : Key) : option Value :=
  match k with
  | k_postId => VString <$> md_postId md
  | k_userId => VString <$> md_userId md
  | k_timestamp => VTime <$> md_timestamp md
  | k_type => VString <$> md_type md
  | k_viewDuration => VNumber <$> md_viewDuration md
  | k_scrollDepth => VNumber <$> md_scrollDepth md
  | k_inViewport => VBoolean <$> md_inViewport md
  | k_deviceType => VString <$> md_deviceType md
  end.

Definition imp_get (i : Impression) (k : Key) : option Value :=
  match k with
  | k_postId => Some (VString (imp_postId i))
  | k_userId => Some (VString (imp_userId i))
  | k_timestamp => Some (VTime (imp_timestamp i))
  | k_type => VString <$> imp_type i
  | k_viewDuration => Some (VNumber (imp_viewDuration i))
  | k_scrollDepth => Some (VNumber (imp_scrollDepth i))
  | k_inViewport => Some (VBoolean (imp_inViewport i))
  | k_deviceType => Some (VString (imp_deviceType i))
  end.

Definition eng_get (e : Engagement) (k : Key) : option Value :=
  match k with
  | k_postId => Some (VString (eng_postId e))
  | k_userId => Some (VString (eng_userId e))
  | k_timestamp => Some (VTime (eng_timestamp e))
  | k_type => Some (VString (eng_type e))
  | k_viewDuration => VNumber <$> eng_viewDuration e
  | k_scrollDepth => VNumber <$> eng_scrollDepth e
  | k_inViewport => VBoolean <$> eng_inViewport e
  | k_deviceType => VString <$> eng_deviceType e
  end.

(** The popularity classes by rate, in the words of the specification. *)
Inductive popularity_of_rate (rate : Q) : Popularity -> Prop :=
| rate_viral : (0.1 < rate)%Q -> popularity_of_rate rate viral
| rate_trending :
    (0.05 < rate)%Q -> (rate <= 0.1)%Q -> popularity_of_rate rate trending
| rate_popular :
    (0.02 < rate)%Q -> (rate <= 0.05)%Q -> popularity_of_rate rate popular
| rate_normal : (rate <= 0.02)%Q -> popularity_of_rate rate normal.

(** What the detached persistence chain of a record method writes to the
    console for a settled persistence call. *)
Definition logged (failed msg : string) (p : Settled string) : Console :=
  match p with
  | Fulfilled _ => []
  | Rejected err => [(failed, err); (msg, err)]
  end.

(** ** Scenarios *)

(** A sink that accepts every event, and one that is unreachable. *)
Definition accepting_sink {E : Type} : EventSink E :=
  fun _ _ => Response 200 (Some "{}").

Definition offline_sink {E : Type} : EventSink E :=
  fun _ _ => NetworkFailure "offline".

(** A post of [author] with the given creation time and counters. *)
Definition a_post (postId author : string) (created : Z)
    (nlikes nreposts nreplies nimpressions : N) : Post :=
  mkPost postId author (Some author) "" created
    (Some (mkEngagementCount (Some nlikes) (Some nreposts) (Some nreplies)))
    (Some nimpressions).

(** The engine after [recordEngagement(postId, userId, "like")] at [now]. *)
Definition liked (st : Engine) (now : Z) (postId userId : string) : Engine :=
  snd (fst (recordEngagement st now offline_sink postId userId "like"
              no_metadata)).


Definition reader_of_two : Engine :=
  liked (liked new_engine 1 "alice_1" "u1") 2 "bob_1" "u1".

(** A post with one like before a post with one reply; the reader liked a
    post that is not in the collection. *)
Definition quiet_post : Post := a_post "dave_1" "dave" 0 1 0 0 10.
Definition loud_post : Post := a_post "erin_1" "erin" 0 0 0 1 10.

Definition reader_elsewhere : Engine := liked new_engine 1 "carol_1" "u1".

(** The two posts of the ranking scenario, at clock reading [now]. *)
Definition post_A (now : Z) : Post := a_post "a_1" "a" now 100 0 0 1000.
Definition post_B (now : Z) : Post :=
  a_post "b_1" "b" (now - 172800000) 10 0 0 50.

(** Metadata that brings its own timestamp. *)
Definition backdated : Metadata :=
  mkMetadata None None None (Some 42) None None None None.

(** The engine after a first [generateFeed] for the reader at clock reading
    1000, and the cache entry that call stored. *)
Definition first_feed : list ScoredPost * Engine :=
  generateFeed new_engine 1000 [quiet_post; loud_post] "u1" no_preferences.

Definition first_entry : CacheEntry := mkCacheEntry (fst first_feed) 1000.

(** A post with the counters of [quiet_post] by another author. *)
Definition quiet_twin : Post := a_post "zed_1" "zed" 99 1 0 0 10.

(** Another post of the author of [quiet_post], with the same creation time
    and counters, and so with the same score. *)
Definition quiet_sequel : Post := a_post "dave_2" "dave" 0 1 0 0 10.

(** ** Cache control *)

(** Truthiness of a string that may be missing: [null], [undefined] and the
    empty string are the falsy values. *)
Definition string_truthy (s : option string) : bool :=
  match s with
  | Some s => negb (String.eqb s "")
  | None => false
  end.

(** [clearCache(userId = null)] *)
Definition clearCache (st : Engine) (userId : option string) : Engine :=
  {| userImpressions := userImpressions st;
     userEngagements := userEngagements st;
     feedCache :=
       match userId with
       | Some u =>
           if string_truthy userId
           then delete (cacheKey_of u) (feedCache st)
           else ∅
       | None => ∅
       end |}.

(** ** Statistics *)

Module Stats.

Record EngagementBreakdown := mkEngagementBreakdown {
  likes : nat;
  reposts : nat;
  replies : nat;
  shares : nat
}.

Record DeviceDistribution := mkDeviceDistribution {
  mobile : nat;
  tablet : nat;
  desktop : nat
}.

Record Statistics := mkStatistics {
  totalImpressions : nat;
  totalEngagements : nat;
  engagementRate : Q;
  averageViewDuration : Q;
  engagementBreakdown : EngagementBreakdown;
  deviceDistribution : DeviceDistribution
}.

End Stats.

(** A length as a JavaScript number. *)
Definition qlen {A : Type} (l : list A) : Q := inject_Z (Z.of_nat (length l)).

(** [arr.filter(e => e.type === t).length] *)
Definition count_type (t : string) (l : list Engagement) : nat :=
  length (List.filter (fun e => String.eqb (eng_type e) t) l).

(** [arr.filter(i => i.deviceType === d).length] *)
Definition count_device (d : string) (l : list Impression) : nat :=
  length (List.filter (fun i => String.eqb (imp_deviceType i) d) l).

Definition getStatistics (st : Engine) (userId : string) : Stats.Statistics :=
  let userImpressions := default [] (userImpressions st !! userId) in
  let userEngagements := default [] (userEngagements st !! userId) in
  {| Stats.totalImpressions := length userImpressions;
     Stats.totalEngagements := length userEngagements;
     Stats.engagementRate :=
       (qlen userEngagements
        / inject_Z (Z.max 1 (Z.of_nat (length userImpressions))))%Q;
     Stats.averageViewDuration :=
       if (0 <? length userImpressions)%nat
       then (fold_left
               (fun sum i =>
                  (sum + Js.num_or (Some (imp_viewDuration i)) 0)%Q)
               userImpressions 0%Q
             / qlen userImpressions)%Q
       else 0%Q;
     Stats.engagementBreakdown :=
       {| Stats.likes := count_type "like" userEngagements;
          Stats.reposts := count_type "repost" userEngagements;
          Stats.replies := count_type "reply" userEngagements;
          Stats.shares := count_type "share" userEngagements |};
     Stats.deviceDistribution :=
       {| Stats.mobile := count_device "mobile" userImpressions;
          Stats.tablet := count_device "tablet" userImpressions;
          Stats.desktop := count_device "desktop" userImpressions |} |}.

(** ** Sessions *)

(** [generateSessionId()]. [random36] is the string
    [Math.random().toString(36).substring(2, 15)] of this call. *)
Definition generateSessionId (now : Z) (random36 : string) : string :=
  ("session_" ++ pretty now ++ "_" ++ random36)%string.

(** [getOrCreateSessionId()] on the session storage of the page: the
    identifier and the storage after the call. *)
Definition getOrCreateSessionId (sessionStorage : gmap string string)
    (now : Z) (random36 : string) : string * gmap string string :=
  let sessionId := sessionStorage !! "pulsenote_session_id" in
  if negb (string_truthy sessionId) then
    let sessionId := generateSessionId now random36 in
    (sessionId, <["pulsenote_session_id" := sessionId]> sessionStorage)
  else (default "" sessionId, sessionStorage).

(** ** Algorithm variants *)

(** The comparators of the variants. *)
Definition by_engagementScore (a b : Post) : R :=
  (calculateEngagementScore b - calculateEngagementScore a)%R.

Definition by_createdAt (a b : Post) : R :=
  (IZR (createdAt b) - IZR (createdAt a))%R.

(** [testAlgorithmVariant(allPosts, userId, variant = 'control')]. The
    first two variants sort the array of the caller in place, so the result
    is the returned list, the array of the caller after the call, and the
    engine after the call. The array of the caller is a value here, hence no
    array that the engine holds; [Shared.testAlgorithmVariant] is the method
    for a caller that passes an array it was handed by [generateFeed]. *)
Definition testAlgorithmVariant (st : Engine) (now : Z)
    (allPosts : list Post) (userId : string) (variant : option string)
    : (list Post + list ScoredPost) * list Post * Engine :=
  let variant := default "control" variant in
  if String.eqb variant "engagement_heavy" then
    let sorted := Js.sort by_engagementScore allPosts in
    (inl (Js.slice0 (maxFeedSize config) sorted), sorted, st)
  else if String.eqb variant "recency_heavy" then
    let sorted := Js.sort by_createdAt allPosts in
    (inl (Js.slice0 (maxFeedSize config) sorted), sorted, st)
  else if String.eqb variant "diversity_focus" then
    let r := generateFeed st now allPosts userId (mkPreferences (Some true)) in
    (inr (fst r), allPosts, snd r)
  else
    let r := generateFeed st now allPosts userId no_preferences in
    (inr (fst r), allPosts, snd r).

(** ** Runs of the engine *)

(** One call of a method that may change the engine. *)
Inductive step : Engine -> Engine -> Prop :=
| step_recordImpression st now innerWidth sink postId userId metadata :
    step st (snd (fst (recordImpression st now innerWidth sink postId userId
                         metadata)))
| step_recordEngagement st now sink postId userId engagementType metadata :
    step st (snd (fst (recordEngagement st now sink postId userId
                         engagementType metadata)))
| step_generateFeed st now allPosts userId preferences :
    step st (snd (generateFeed st now allPosts userId preferences))
| step_testAlgorithmVariant st now allPosts userId variant :
    step st (snd (testAlgorithmVariant st now allPosts userId variant))
| step_clearCache st userId :
    step st (clearCache st userId).

(** The candidates [getRecommendedPosts] keeps for a user with history, in
    the order of the collection. *)
Definition candidates (st : Engine) (allPosts : list Post)
    (userId : string) : list Post :=
  let engagedPostIds := map eng_postId (history st userId) in
  let engagedPosts :=
    List.filter (fun p => Js.includes engagedPostIds (id p)) allPosts in
  List.filter
    (fun post =>
       negb (Js.includes engagedPostIds (id post))
       && Js.strict_neq (displayName post)
                        (head engagedPosts ≫= displayName))
    allPosts.

(** The engine after [recordImpression(postId, userId)] at [now] on a
    desktop. *)
Definition seen (st : Engine) (now : Z) (postId userId : string) : Engine :=
  snd (fst (recordImpression st now 1280 offline_sink postId userId
              no_metadata)).

(** A post that carries no [displayName]. *)
Definition nameless_post : Post :=
  mkPost "frank_1" "frank" None "" 0
    (Some (mkEngagementCount (Some 5%N) (Some 0%N) (Some 0%N))) (Some 10%N).


(** The number of impressions of [post] recorded for the user. *)
Definition impression_count (st : Engine) (post : Post) (userId : string)
    : nat :=
  length (List.filter (fun i => String.eqb (imp_postId i) (id post))
                      (impression_history st userId)).

(** The posts of a collection with their scores, in the order of the
    collection. *)
Definition scored (st : Engine) (now : Z) (userId : string)
    (preferences : Preferences) (allPosts : list Post) : list ScoredPost :=
  map (fun post =>
         mkScoredPost post
           (calculatePostScore st now post userId preferences))
      allPosts.

(** Every element of [rest] has a key that is at most the key of every
    element of [kept]. *)
Definition dominated {A : Type} (key : A -> R) (kept rest : list A) : Prop :=
  Forall (fun r => Forall (fun k => (key r <= key k)%R) kept) rest.


(** The posts of a collection with their trend scores, in the order of the
    collection. *)
Definition trend_scored (now : Z) (allPosts : list Post)
    : list TrendingPost :=
  map (fun post => mkTrendingPost post (calculateTrendScore post now))
      allPosts.

(** Whether a post carries a [displayName]. *)
Definition has_displayName (post : Post) : bool :=
  match displayName post with
  | Some _ => true
  | None => false
  end.

(** The engagement types and device types [getStatistics] counts. *)
Definition listed_type (t : string) : bool :=
  String.eqb t "like" || String.eqb t "repost"
  || String.eqb t "reply" || String.eqb t "share".

Definition listed_device (d : string) : bool :=
  String.eqb d "mobile" || String.eqb d "tablet" || String.eqb d "desktop".

(** Any number of calls, one after the other. *)
Inductive steps : Engine -> Engine -> Prop :=
| steps_none st : steps st st
| steps_more st st' st'' : steps st st' -> step st' st'' -> steps st st''.

(** ** Interests *)

Section Interests.

(** The string operations of the method are parameters of its embedding:
    [words content] is [content.toLowerCase().split(/\s+/)], and
    [length16 word] is [word.length]. *)
Variable words : string -> list string.
Variable length16 : string -> nat.

(** [keywords.set(word, (keywords.get(word) || 0) + 1)] on a [Map]: the
    entries keep the order in which their keys were first set. *)
Fixpoint bump (word : string) (keywords : list (string * nat))
    : list (string * nat) :=
  match keywords with
  | [] => [(word, (0 + 1)%nat)]
  | (k, n) :: rest =>
      if String.eqb k word then (k, (n + 1)%nat) :: rest
      else (k, n) :: bump word rest
  end.

(** [words.forEach(word => { if (word.length > 4) ... })] *)
Definition count_words (keywords : list (string * nat))
    (ws : list string) : list (string * nat) :=
  fold_left
    (fun keywords word =>
       if (4 <? length16 word)%nat then bump word keywords else keywords)
    ws keywords.

(** The comparator [(a, b) => b[1] - a[1]]. *)
Definition by_count (a b : string * nat) : R :=
  (INR (snd b) - INR (snd a))%R.

Definition inferUserInterests (st : Engine) (userId : string)
    (allPosts : list Post) : list string :=
  let userEngagements := default [] (userEngagements st !! userId) in
  let engagedPosts :=
    List.filter
      (fun p =>
         existsb (fun e => String.eqb (eng_postId e) (id p)) userEngagements)
      allPosts in
  let keywords :=
    fold_left (fun keywords post => count_words keywords (words (content post)))
              engagedPosts [] in
  map fst (Js.slice0 5 (Js.sort by_count keywords)).

(** The words longer than 4 of the posts of the collection the user engaged
    with, in the order of the collection, and how often a word is among
    them. *)
Definition long_words (st : Engine) (userId : string)
    (allPosts : list Post) : list string :=
  flat_map
    (fun p => List.filter (fun w => (4 <? length16 w)%nat) (words (content p)))
    (List.filter
       (fun p =>
          existsb (fun e => String.eqb (eng_postId e) (id p))
                  (history st userId))
       allPosts).

End Interests.

Definition occurrences (w : string) (ws : list string) : nat :=
  length (List.filter (String.eqb w) ws).

(** The value of a key in a [Map] of counts, 0 when the key is missing. *)
Fixpoint count_of (keywords : list (string * nat)) (w : string) : nat :=
  match keywords with
  | [] => 0%nat
  | (k, n) :: rest => if String.eqb k w then n else count_of rest w
  end.

(** A tokenizer for the scenarios: the content is cut at every space. *)
Fixpoint cut_at_spaces (acc s : string) : list string :=
  match s with
  | EmptyString => [acc]
  | String c s' =>
      if Ascii.eqb c " "%char then acc :: cut_at_spaces "" s'
      else cut_at_spaces (acc ++ String c "")%string s'
  end.

Definition space_words (content : string) : list string :=
  cut_at_spaces "" content.

(** A post of [author] with a text. *)
Definition a_text (postId author text : string) : Post :=
  mkPost postId author (Some author) text 0 None None.

(** ** Arrays by reference

    The methods above take and return arrays as values. In the code an
    array is an object: [generateFeed] returns the very array it keeps in
    the cache, and two variants of [testAlgorithmVariant] sort the array of
    the caller in place. This module embeds the two methods over a store of
    arrays, for what depends on an array being reached from two places. *)

Module Shared.

(** An element of an array of posts: the post, and its [score] when the
    element is a [{...post, score}] of a feed. *)
Record Item := mkItem {
  item_post : Post;
  item_score : option R
}.

(** A cache entry: the address of the feed array, and the timestamp. *)
Record Entry := mkEntry {
  feed : nat;
  timestamp : Z
}.

(** The engine and the arrays of the program: [arrays] maps the address of
    an array to its elements, and the addresses below [next] are in use. *)
Record State := mkState {
  impressions : gmap string (list Impression);
  engagements : gmap string (list Engagement);
  cache : gmap string Entry;
  arrays : gmap nat (list Item);
  next : nat
}.

(** The histories, as the scoring methods read them. *)
Definition histories (st : State) : Engine :=
  mkEngine (impressions st) (engagements st) ∅.

(** The elements of the array at an address. *)
Definition read (st : State) (a : nat) : list Item :=
  default [] (arrays st !! a).

(** An update of the array at an address, in place. *)
Definition write (a : nat) (items : list Item) (st : State) : State :=
  mkState (impressions st) (engagements st) (cache st)
          (<[a := items]> (arrays st)) (next st).

(** A new array. *)
Definition alloc (items : list Item) (st : State) : nat * State :=
  (next st,
   mkState (impressions st) (engagements st) (cache st)
           (<[next st := items]> (arrays st)) (S (next st))).

(** [item.score]; the arrays that are sorted by score hold scored elements
    only. *)
Definition score_of (item : Item) : R := default 0%R (item_score item).

Definition by_score (a b : Item) : R := (score_of b - score_of a)%R.

Definition by_engagementScore (a b : Item) : R :=
  (calculateEngagementScore (item_post b)
   - calculateEngagementScore (item_post a))%R.

Definition by_createdAt (a b : Item) : R :=
  (IZR (createdAt (item_post b)) - IZR (createdAt (item_post a)))%R.

(** The cache check of [generateFeed]: the address of the feed to serve. *)
Definition served (st : State) (now : Z) (userId : string) : option nat :=
  match cache st !! cacheKey_of userId with
  | Some cached =>
      if now - timestamp cached <? impressionCacheTTL config
      then Some (feed cached)
      else None
  | None => None
  end.

(** [generateFeed(allPosts, userId, userPreferences)] with [allPosts] and
    the result as addresses. The array [scoredPosts] that [map] builds is
    reached from nowhere after the call and gets no address; the array
    [rankedPosts] that [slice] builds is the one stored and returned. *)
Definition generateFeed (st : State) (now : Z) (allPosts : nat)
    (userId : string) (userPreferences : Preferences) : nat * State :=
  match served st now userId with
  | Some cachedFeed => (cachedFeed, st)
  | None =>
      let scoredPosts :=
        map (fun item =>
               mkItem (item_post item)
                 (Some (calculatePostScore (histories st) now
                          (item_post item) userId userPreferences)))
            (read st allPosts) in
      let rankedPosts :=
        Js.slice0 (maxFeedSize config) (Js.sort by_score scoredPosts) in
      let r := alloc rankedPosts st in
      (fst r,
       mkState (impressions (snd r)) (engagements (snd r))
         (<[cacheKey_of userId := mkEntry (fst r) now]> (cache (snd r)))
         (arrays (snd r)) (next (snd r)))
  end.

(** [testAlgorithmVariant(allPosts, userId, variant = 'control')]: [sort]
    reorders the array at [allPosts] itself, and [slice] builds the array
    that is returned. *)
Definition testAlgorithmVariant (st : State) (now : Z) (allPosts : nat)
    (userId : string) (variant : option string) : nat * State :=
  let variant := default "control" variant in
  if String.eqb variant "engagement_heavy" then
    let st1 :=
      write allPosts (Js.sort by_engagementScore (read st allPosts)) st in
    alloc (Js.slice0 (maxFeedSize config) (read st1 allPosts)) st1
  else if String.eqb variant "recency_heavy" then
    let st1 :=
      write allPosts (Js.sort by_createdAt (read st allPosts)) st in
    alloc (Js.slice0 (maxFeedSize config) (read st1 allPosts)) st1
  else if String.eqb variant "diversity_focus" then
    generateFeed st now allPosts userId (mkPreferences (Some true))
  else
    generateFeed st now allPosts userId no_preferences.

End Shared.

(** A fresh post with one like, and a post of 48 hours before with more
    and heavier reactions: the fresh one has the higher score, the old one
    the higher engagement score. *)
Definition new_one : Post := a_post "new_1" "nora" 172800000 1 0 0 10.
Definition old_one : Post := a_post "old_1" "omar" 0 9 1 0 10.

(** A program that holds one array, with these two posts, at address 0. *)
Definition one_array : Shared.State :=
  Shared.mkState ∅ ∅ ∅
    {[ 0%nat := [Shared.mkItem new_one None; Shared.mkItem old_one None] ]}
    1.

(** The ranking [generateFeed] computes from the elements of an array. *)
Definition shared_ranking (st : Shared.State) (now : Z)
    (items : list Shared.Item) (userId : string)
    (preferences : Preferences) : list Shared.Item :=
  Js.slice0 50
    (Js.sort Shared.by_score
       (map (fun item =>
               Shared.mkItem (Shared.item_post item)
                 (Some (calculatePostScore (Shared.histories st) now
                          (Shared.item_post item) userId preferences)))
            items)).

(** The engagement score and the creation time of an element. *)
Definition item_engagement (item : Shared.Item) : R :=
  calculateEngagementScore (Shared.item_post item).

Definition item_created (item : Shared.Item) : R :=
  IZR (createdAt (Shared.item_post item)).

(** The two posts as elements of the feed of user u1 at the creation time of
    the fresh one. *)
Definition new_item : Shared.Item :=
  Shared.mkItem new_one
    (Some (calculatePostScore (Shared.histories one_array) 172800000 new_one
             "u1" no_preferences)).

Definition old_item : Shared.Item :=
  Shared.mkItem old_one
    (Some (calculatePostScore (Shared.histories one_array) 172800000 old_one
             "u1" no_preferences)).

(** ** Properties of the array helpers *)

Section SortFacts.
Context {A : Type}.
Implicit Types (cmp : A -> A -> R) (l : list A).

Lemma sort_insert_length cmp x l :
  length (Js.sort_insert cmp x l) = S (length l).
Proof.
  induction l as [|y l IH]; simpl; [reflexivity|].
  destruct (Rlt_dec 0 (cmp x y)); simpl; [now rewrite IH | reflexivity].
Qed.

Lemma sort_length cmp l : length (Js.sort cmp l) = length l.
Proof.
  unfold Js.sort.
  induction l as [|x l IH]; simpl; [reflexivity|].
  now rewrite sort_insert_length, IH.
Qed.

Lemma sort_insert_perm cmp x l : Permutation (Js.sort_insert cmp x l) (x :: l).
Proof.
  induction l as [|y l IH]; simpl; [reflexivity|].
  destruct (Rlt_dec 0 (cmp x y)); [|reflexivity].
  rewrite IH. apply perm_swap.
Qed.

Lemma sort_perm cmp l : Permutation (Js.sort cmp l) l.
Proof.
  unfold Js.sort.
  induction l as [|x l IH]; simpl; [reflexivity|].
  now rewrite sort_insert_perm, IH.
Qed.

(** Sorting with the comparator [(a, b) => key b - key a] leaves the keys
    in descending order. *)
Variable key : A -> R.

Lemma sort_insert_descending x l :
  descending key l ->
  descending key (Js.sort_insert (fun a b => (key b - key a)%R) x l).
Proof.
  unfold descending.
  induction l as [|y l IH]; intros Hl; simpl.
  - constructor; constructor.
  - apply StronglySorted_inv in Hl as [Hl Hy].
    destruct (Rlt_dec 0 (key y - key x)) as [Hlt|Hge].
    + constructor; [now apply IH|].
      eapply Permutation_Forall.
      * symmetry. apply sort_insert_perm.
      * constructor; [lra | exact Hy].
    + constructor; [now constructor|].
      constructor; [lra|].
      eapply Forall_impl; [exact Hy|].
      simpl. intros z Hz. lra.
Qed.

Lemma sort_descending l :
  descending key (Js.sort (fun a b => (key b - key a)%R) l).
Proof.
  unfold Js.sort.
  induction l as [|x l IH]; simpl.
  - constructor.
  - now apply sort_insert_descending.
Qed.

Lemma In_slice0 n l x : In x (Js.slice0 n l) -> In x l.
Proof.
  unfold Js.slice0. intros Hx.
  rewrite <- (firstn_skipn n l). apply in_or_app. now left.
Qed.

Lemma descending_slice0 n l :
  descending key l -> descending key (Js.slice0 n l).
Proof.
  unfold descending, Js.slice0. revert n.
  induction l as [|x l IH]; intros [|n] Hl; simpl; try constructor.
  - apply IH. now apply StronglySorted_inv in Hl.
  - apply StronglySorted_inv in Hl as [_ Hx].
    apply List.Forall_forall. intros y Hy.
    rewrite List.Forall_forall in Hx. apply Hx.
    apply (In_slice0 n). exact Hy.
Qed.
End SortFacts.

(** ** Scores *)

Lemma diversity_bounds st post userId :
  (0 < calculateDiversityScore st post userId <= 1)%R.
Proof.
  unfold calculateDiversityScore.
  set (k := INR (length _)).
  assert (0 <= k)%R by apply pos_INR.
  assert (Hpos : (0 < 1.0 + k * 0.1)%R) by lra.
  split.
  - apply Rdiv_lt_0_compat; lra.
  - apply (Rmult_le_reg_r (1.0 + k * 0.1)); [exact Hpos|].
    unfold Rdiv. rewrite Rmult_assoc, Rinv_l by lra. lra.
Qed.

Lemma post_score_formula st now post userId preferences :
  calculatePostScore st now post userId preferences
  = ((calculateEngagementScore post * 0.6
      + calculateRecencyScore now post * 0.3
      + calculateDiversityScore st post userId * 0.1)
     * (if Js.truthy (boostRecent preferences) then 1.2 else 1))%R.
Proof.
  unfold calculatePostScore. simpl.
  destruct (Js.truthy (boostRecent preferences)); lra.
Qed.


(** ** The feed cache *)

Lemma generateFeed_hit st now allPosts userId preferences entry :
  fresh_entry st now userId entry ->
  generateFeed st now allPosts userId preferences = (feed entry, st).
Proof.
  intros [Hlook Hage]. unfold generateFeed. rewrite Hlook. simpl.
  destruct (Z.ltb_spec (now - timestamp entry) 3600000); [reflexivity|lia].
Qed.

Lemma generateFeed_miss st now allPosts userId preferences :
  (forall entry, ~ fresh_entry st now userId entry) ->
  generateFeed st now allPosts userId preferences
  = let rankedPosts :=
      Js.slice0 50
        (Js.sort by_score
           (map (fun post =>
                   mkScoredPost post
                     (calculatePostScore st now post userId preferences))
                allPosts)) in
    (rankedPosts,
     mkEngine (userImpressions st) (userEngagements st)
       (<[cacheKey_of userId := mkCacheEntry rankedPosts now]>
          (feedCache st))).
Proof.
  intros Hmiss. unfold generateFeed.
  destruct (feedCache st !! cacheKey_of userId) as [entry|] eqn:Hlook;
    [|reflexivity].
  simpl. destruct (Z.ltb_spec (now - timestamp entry) 3600000);
    [|reflexivity].
  exfalso. apply (Hmiss entry). split; assumption.
Qed.

Lemma generateFeed_populate_then_hit
    st now now' allPosts allPosts' userId preferences preferences' :
  (forall entry, ~ fresh_entry st now userId entry) ->
  now' - now < 3600000 ->
  let first := generateFeed st now allPosts userId preferences in
  generateFeed (snd first) now' allPosts' userId preferences' = first.
Proof.
  intros Hmiss Hage. rewrite (generateFeed_miss _ _ _ _ _ Hmiss).
  cbv zeta. set (rankedPosts := Js.slice0 50 _). cbn [snd].
  apply (generateFeed_hit _ _ _ _ _ (mkCacheEntry rankedPosts now)).
  split; [apply lookup_insert_eq | exact Hage].
Qed.

(** C3. Within the time to live of a cache entry (an entry less than
    3600000 ms old), [generateFeed] returns the cached list as it is and
    leaves the engine as it is, whatever posts and preferences it is
    called with; so a second call within the time to live, with other posts
    and preferences, returns the same list again. *)
Theorem generateFeed_cache_hit
    (st : Engine) (now now' : Z) (userId : string) (entry : CacheEntry)
    (allPosts allPosts' : list Post)
    (preferences preferences' : Preferences)
    (Hfresh : fresh_entry st now userId entry)
    (Hfresh' : fresh_entry st now' userId entry) :
  generateFeed st now allPosts userId preferences = (feed entry, st)
  /\ generateFeed (snd (generateFeed st now allPosts userId preferences))
       now' allPosts' userId preferences'
     = (feed entry, st).
Proof.
  rewrite (generateFeed_hit st now allPosts userId preferences entry Hfresh).
  split; [reflexivity|].
  simpl. now apply generateFeed_hit.
Qed.

(** C5. Without a cache entry to serve, the feed has
    [min (|allPosts|, 50)] posts; an empty collection gives an empty feed. *)
Theorem generateFeed_length
    (st : Engine) (now : Z) (allPosts : list Post) (userId : string)
    (preferences : Preferences)
    (Hmiss : forall entry, ~ fresh_entry st now userId entry) :
  length (fst (generateFeed st now allPosts userId preferences))
  = Nat.min (length allPosts) 50
  /\ (allPosts = [] ->
      fst (generateFeed st now allPosts userId preferences) = []).
Proof.
  rewrite generateFeed_miss by exact Hmiss. simpl.
  assert (Hlen : length (Js.slice0 50
            (Js.sort by_score
               (map (fun post =>
                       mkScoredPost post
                         (calculatePostScore st now post userId preferences))
                    allPosts))) = Nat.min (length allPosts) 50).
  { unfold Js.slice0.
    rewrite length_firstn, sort_length, length_map. apply Nat.min_comm. }
  split; [exact Hlen|].
  intros ->. reflexivity.
Qed.

(** ** Trending and recommended posts *)

(** C6. Cold start: for a user without engagement history,
    [getRecommendedPosts] returns what [getTrendingPosts] returns for the
    same posts and limit. *)
Theorem getRecommendedPosts_cold_start
    (st : Engine) (now : Z) (allPosts : list Post) (userId : string)
    (limit : option nat)
    (Hcold : history st userId = []) :
  getRecommendedPosts st now allPosts userId limit
  = inl (getTrendingPosts now allPosts limit).
Proof.
  unfold getRecommendedPosts. fold (history st userId). rewrite Hcold.
  simpl. unfold getTrendingPosts. destruct limit; reflexivity.
Qed.

Lemma includes_In l s : Js.includes l s = true <-> In s l.
Proof.
  unfold Js.includes. rewrite existsb_exists. split.
  - intros [x [Hx Heq]]. apply String.eqb_eq in Heq. now subst.
  - intros Hs. exists s. split; [exact Hs | apply String.eqb_refl].
Qed.


Lemma includes_false l s : Js.includes l s = false <-> ~ In s l.
Proof.
  rewrite <- includes_In. destruct (Js.includes l s); split; congruence.
Qed.

Lemma getRecommendedPosts_warm st now allPosts userId limit :
  history st userId <> [] ->
  getRecommendedPosts st now allPosts userId limit
  = inr (Js.sort by_score
           (map (fun post =>
                   mkScoredPost post
                     (calculatePostScore st now post userId no_preferences))
              (Js.slice0 (default 10%nat limit)
                 (candidates st allPosts userId)))).
Proof.
  intros Hwarm. unfold getRecommendedPosts, candidates.
  fold (history st userId).
  destruct (history st userId) as [|e es]; [congruence|].
  reflexivity.
Qed.





Lemma engagement_score_of_counts post (l r p : N) :
  counter likes post = l ->
  counter reposts post = r ->
  counter replies post = p ->
  calculateEngagementScore post
  = ((num l + 2 * num r + 3 * num p) / Rmax 1 (num l + num r + num p))%R.
Proof.
  intros <- <- <-. unfold calculateEngagementScore. cbv zeta.
  f_equal. lra.
Qed.

Lemma reader_elsewhere_history :
  history reader_elsewhere "u1"
  = [ mkEngagement "carol_1" "u1" "like" 1 None None None None ].
Proof. vm_compute. reflexivity. Qed.

(** [getRecommendedPosts] cuts the candidates to [limit] before it scores
    and sorts them, where [generateFeed] and [getTrendingPosts] sort first
    and cut after: with [limit = 1] it returns the first candidate of the
    collection although the second one has the higher score. *)
Lemma getRecommendedPosts_cuts_before_sorting :
  exists r : ScoredPost,
    getRecommendedPosts reader_elsewhere 0 [quiet_post; loud_post] "u1"
                        (Some 1%nat)
    = inr [r]
    /\ sp_post r = quiet_post
    /\ (score r
        < calculatePostScore reader_elsewhere 0 loud_post "u1" no_preferences)%R.
Proof.
  eexists. split; [|split].
  - unfold getRecommendedPosts. fold (history reader_elsewhere "u1").
    rewrite reader_elsewhere_history. reflexivity.
  - reflexivity.
  - cbn [score].
    rewrite !post_score_formula.
    cbn [Js.truthy boostRecent no_preferences].
    rewrite (engagement_score_of_counts quiet_post 1 0 0) by reflexivity.
    rewrite (engagement_score_of_counts loud_post 0 0 1) by reflexivity.
    change (calculateRecencyScore 0 loud_post)
      with (calculateRecencyScore 0 quiet_post).
    pose proof (diversity_bounds reader_elsewhere quiet_post "u1").
    pose proof (diversity_bounds reader_elsewhere loud_post "u1").
    unfold num. cbn [Z.of_N].
    replace (1 + 2 * 0 + 3 * 0)%R with 1%R by lra.
    replace (0 + 2 * 0 + 3 * 1)%R with 3%R by lra.
    replace (1 + 0 + 0)%R with 1%R by lra.
    replace (0 + 0 + 1)%R with 1%R by lra.
    rewrite Rmax_left by lra.
    lra.
Qed.

(** ** The ranking scenario *)

Lemma exp_minus_2_small : (exp (-2) < 1 / 3)%R.
Proof.
  assert (H3 : (3 < exp 2)%R).
  { pose proof (exp_ineq1 2). lra. }
  replace (-2)%R with (Ropp 2) by lra.
  rewrite exp_Ropp.
  apply (Rmult_lt_reg_r (exp 2)); [lra|].
  rewrite Rinv_l by lra. lra.
Qed.

Lemma recency_at_creation now post :
  createdAt post = now -> calculateRecencyScore now post = 1%R.
Proof.
  intros Hcreated. unfold calculateRecencyScore. cbv zeta.
  rewrite Hcreated, Z.sub_diag.
  replace (- (0 / 3600000) / 24)%R with 0%R by lra.
  apply exp_0.
Qed.

Lemma recency_after_48_hours now post :
  createdAt post = now - 172800000 ->
  calculateRecencyScore now post = exp (-2).
Proof.
  intros Hcreated. unfold calculateRecencyScore. cbv zeta.
  rewrite Hcreated.
  replace (now - (now - 172800000)) with 172800000 by lia.
  f_equal. lra.
Qed.

Lemma engagement_score_of_likes post (n : N) :
  (0 < n)%N ->
  counter likes post = n ->
  counter reposts post = 0%N ->
  counter replies post = 0%N ->
  calculateEngagementScore post = 1%R.
Proof.
  intros Hn Hl Hr Hp.
  rewrite (engagement_score_of_counts post n 0 0) by assumption.
  assert (Hone : (1 <= num n)%R).
  { unfold num. apply IZR_le. lia. }
  change (num 0) with 0%R.
  replace (num n + 0 + 0)%R with (num n) by lra.
  rewrite Rmax_right by exact Hone.
  unfold Rdiv. replace (num n + 2 * 0 + 3 * 0)%R with (num n) by lra.
  apply Rinv_r. lra.
Qed.

(** C7. Post A (created now, 100 likes, no reposts, no replies) scores
    strictly higher than post B (created 48 hours earlier, 10 likes, no
    reposts, no replies) for every user and history: both engagement scores
    are 1, the recency scores are 1 and [exp (-2)], each diversity term lies
    in (0, 0.1], and so the composite of A, 0.9 plus its diversity term,
    exceeds the composite of B, [0.6 + 0.3 * exp (-2)] plus its diversity
    term; the order is the same with [boostRecent]. *)
Theorem fresh_post_outranks_old_post
    (st : Engine) (now : Z) (userId : string) (preferences : Preferences)
    (A B : Post)
    (HA_created : createdAt A = now)
    (HA_likes : counter likes A = 100%N)
    (HA_reposts : counter reposts A = 0%N)
    (HA_replies : counter replies A = 0%N)
    (HB_created : createdAt B = now - 48 * 3600000)
    (HB_likes : counter likes B = 10%N)
    (HB_reposts : counter reposts B = 0%N)
    (HB_replies : counter replies B = 0%N) :
  let dA := (calculateDiversityScore st A userId * 0.1)%R in
  let dB := (calculateDiversityScore st B userId * 0.1)%R in
  calculateEngagementScore A = 1%R
  /\ calculateEngagementScore B = 1%R
  /\ calculateRecencyScore now A = 1%R
  /\ calculateRecencyScore now B = exp (-2)
  /\ (0 < dA <= 0.1)%R
  /\ (0 < dB <= 0.1)%R
  /\ calculatePostScore st now A userId no_preferences = (0.9 + dA)%R
  /\ calculatePostScore st now B userId no_preferences
     = (0.6 + 0.3 * exp (-2) + dB)%R
  /\ (calculatePostScore st now B userId preferences
      < calculatePostScore st now A userId preferences)%R.
Proof.
  intros dA dB.
  assert (HeA : calculateEngagementScore A = 1%R)
    by (apply (engagement_score_of_likes A 100); [lia|assumption..]).
  assert (HeB : calculateEngagementScore B = 1%R)
    by (apply (engagement_score_of_likes B 10); [lia|assumption..]).
  assert (HrA : calculateRecencyScore now A = 1%R)
    by (now apply recency_at_creation).
  assert (HrB : calculateRecencyScore now B = exp (-2))
    by (apply recency_after_48_hours; rewrite HB_created; lia).
  pose proof (diversity_bounds st A userId) as HdA.
  pose proof (diversity_bounds st B userId) as HdB.
  pose proof exp_minus_2_small as Hexp.
  repeat split; try assumption; try (unfold dA, dB; lra).
  - rewrite post_score_formula, HeA, HrA. fold dA. simpl. lra.
  - rewrite post_score_formula, HeB, HrB. fold dB. simpl. lra.
  - rewrite !post_score_formula, HeA, HeB, HrA, HrB.
    destruct (Js.truthy (boostRecent preferences)); lra.
Qed.

(** ** Popularity *)

Lemma impressions_or_one (ic : option N) :
  Z.of_N (Js.count_or ic 1) = Z.max 1 (Z.of_N (default 0%N ic)).
Proof.
  destruct ic as [n|]; simpl; [|reflexivity].
  destruct (N.eqb_spec n 0) as [->|Hn]; [reflexivity|lia].
Qed.

Lemma counter_field (f : EngagementCount -> option N) post :
  counter f post = default 0%N (engagementCount post ≫= f).
Proof.
  unfold counter, Js.count_or.
  destruct (engagementCount post ≫= f) as [n|]; [|reflexivity].
  destruct (N.eqb_spec n 0) as [->|Hn]; reflexivity.
Qed.

Lemma getPostPopularity_rate post :
  popularity_of_rate (spec_rate post) (getPostPopularity post).
Proof.
  unfold getPostPopularity, spec_rate. cbv zeta.
  rewrite impressions_or_one, !counter_field.
  set (rate := (_ / _)%Q).
  destruct (Qlt_le_dec 0.1 rate) as [H1|H1]; [now constructor|].
  destruct (Qlt_le_dec 0.05 rate) as [H2|H2]; [now constructor|].
  destruct (Qlt_le_dec 0.02 rate) as [H3|H3]; now constructor.
Qed.

(** The classes of the specification do not overlap. *)
Lemma popularity_of_rate_functional rate c c' :
  popularity_of_rate rate c -> popularity_of_rate rate c' -> c = c'.
Proof.
  assert (H21 : (0.02 < 0.05)%Q) by reflexivity.
  assert (H52 : (0.05 < 0.1)%Q) by reflexivity.
  intros [] []; try reflexivity; exfalso;
    repeat match goal with
           | Hlt : (?a < ?b)%Q, Hle : (?b <= ?c)%Q |- _ =>
               lazymatch goal with
               | _ : (a < c)%Q |- _ => fail
               | _ => pose proof (Qlt_le_trans _ _ _ Hlt Hle)
               end
           | Hlt : (?a < ?b)%Q, Hlt' : (?b < ?c)%Q |- _ =>
               lazymatch goal with
               | _ : (a < c)%Q |- _ => fail
               | _ => pose proof (Qlt_trans _ _ _ Hlt Hlt')
               end
           end;
    match goal with
    | H : (?a < ?a)%Q |- _ => exact (Qlt_irrefl _ H)
    end.
Qed.

(** C8. [getPostPopularity] is a function of the counters of the post
    alone: with [rate = (likes + reposts + replies) / max (1,
    impressionCount)] it is viral above 0.10, trending above 0.05 and up to
    0.10, popular above 0.02 and up to 0.05, and normal otherwise; it
    neither reads nor changes the engine. *)
Theorem getPostPopularity_spec
    (post post' : Post)
    (Hcounts : engagementCount post' = engagementCount post)
    (Himpressions : impressionCount post' = impressionCount post) :
  popularity_of_rate (spec_rate post) (getPostPopularity post)
  /\ getPostPopularity post' = getPostPopularity post.
Proof.
  split; [apply getPostPopularity_rate|].
  unfold getPostPopularity, counter. now rewrite Hcounts, Himpressions.
Qed.

(** ** Recording events *)

Lemma push_for_lookup {A : Type} (k : string) (x : A)
    (m : gmap string (list A)) :
  push_for k x m !! k = Some (default [] (m !! k) ++ [x]).
Proof.
  unfold push_for. destruct (m !! k) as [l|] eqn:Hk.
  - rewrite lookup_alter_eq, Hk. reflexivity.
  - rewrite lookup_alter_eq, lookup_insert_eq. reflexivity.
Qed.

Lemma recordImpression_history st now innerWidth sink postId userId metadata :
  impression_history
    (snd (fst (recordImpression st now innerWidth sink postId userId
                 metadata))) userId
  = impression_history st userId
    ++ [fst (fst (recordImpression st now innerWidth sink postId userId
                    metadata))].
Proof.
  unfold impression_history. simpl. now rewrite push_for_lookup.
Qed.

Lemma recordEngagement_history st now sink postId userId engagementType
    metadata :
  history
    (snd (fst (recordEngagement st now sink postId userId engagementType
                 metadata))) userId
  = history st userId
    ++ [fst (fst (recordEngagement st now sink postId userId engagementType
                    metadata))].
Proof.
  unfold history. simpl. now rewrite push_for_lookup.
Qed.

Lemma persist_logged {E : Type} endpoint failed msg (sink : EventSink E)
    (event : E) :
  catch_and_log msg (persist endpoint failed sink event)
  = logged failed msg (fst (persist endpoint failed sink event)).
Proof.
  unfold persist.
  destruct (sink endpoint event) as [reason|status [json|]]; simpl;
    try destruct (response_ok status); reflexivity.
Qed.

(** C4 (amended). [recordImpression] always returns the impression it
    built and has appended to the list of the user; a missing
    [viewDuration] or [scrollDepth] is 0 in it, and a missing [inViewport]
    is true. *)
Theorem recordImpression_defaults
    (st : Engine) (now innerWidth : Z) (sink : EventSink Impression)
    (postId userId : string) (metadata : Metadata) :
  exists (impression : Impression) (st' : Engine) (console : Console),
    recordImpression st now innerWidth sink postId userId metadata
    = (impression, st', console)
    /\ last (impression_history st' userId) = Some impression
    /\ imp_viewDuration impression = default 0%Q (md_viewDuration metadata)
    /\ imp_scrollDepth impression = default 0%Q (md_scrollDepth metadata)
    /\ imp_inViewport impression = default true (md_inViewport metadata).
Proof.
  eexists _, _, _. split; [reflexivity|]. split; [|split; [|split]].
  - pose proof (recordImpression_history st now innerWidth sink postId
                  userId metadata) as Hhist.
    simpl in Hhist. rewrite Hhist. apply last_snoc.
  - simpl. unfold Js.num_or. now destruct (md_viewDuration metadata).
  - simpl. unfold Js.num_or. now destruct (md_scrollDepth metadata).
  - simpl. unfold Js.not_false. now destruct (md_inViewport metadata).
Qed.

(** C4, the claim as stated fails: without metadata the impression is
    recorded as in the viewport. *)
Lemma recordImpression_inViewport_default :
  md_inViewport no_metadata = None
  /\ imp_inViewport
       (fst (fst (recordImpression new_engine 0 1280 accepting_sink
                    "p1" "u1" no_metadata)))
     <> false.
Proof. split; [reflexivity | simpl; discriminate]. Qed.

(** C9. Whatever the sink does with the persistence request, the record
    methods return the same event and leave the same engine, with the event
    at the end of the list of the user; a failed request only adds two
    lines to the console. *)
Theorem persistence_failure_not_surfaced
    (st : Engine) (now innerWidth : Z)
    (postId userId engagementType : string) (metadata : Metadata)
    (sinkI sinkI' : EventSink Impression)
    (sinkE sinkE' : EventSink Engagement) :
  let ri := recordImpression st now innerWidth sinkI postId userId metadata in
  let re :=
    recordEngagement st now sinkE postId userId engagementType metadata in
  fst ri
  = fst (recordImpression st now innerWidth sinkI' postId userId metadata)
  /\ impression_history (snd (fst ri)) userId
     = impression_history st userId ++ [fst (fst ri)]
  /\ snd ri
     = logged "Impression persistence failed:"
              "Failed to persist impression:"
              (fst (persistImpression sinkI (fst (fst ri))))
  /\ fst re
     = fst (recordEngagement st now sinkE' postId userId engagementType
              metadata)
  /\ history (snd (fst re)) userId = history st userId ++ [fst (fst re)]
  /\ snd re
     = logged "Engagement persistence failed:"
              "Failed to persist engagement:"
              (fst (persistEngagement sinkE (fst (fst re)))).
Proof.
  intros ri re. repeat split.
  - apply recordImpression_history.
  - apply persist_logged.
  - apply recordEngagement_history.
  - apply persist_logged.
Qed.

(** With an unreachable sink the impression is returned and stored all the
    same, and the two failure lines are on the console. *)
Lemma recordImpression_offline :
  recordImpression new_engine 7 1280 offline_sink "p1" "u1" no_metadata
  = (mkImpression "p1" "u1" 7 0 0 true "desktop" None,
     mkEngine
       {[ "u1" := [mkImpression "p1" "u1" 7 0 0 true "desktop" None] ]} ∅ ∅,
     [ ("Impression persistence failed:", FetchError "offline");
       ("Failed to persist impression:", FetchError "offline") ]).
Proof.
  vm_compute. reflexivity.
Qed.

(** C10. The metadata is spread last into the event: a key of the event
    that the metadata has takes the value of the metadata, in the event
    that is returned and stored, instead of the argument or the value the
    engine made. *)
Theorem metadata_overrides
    (st : Engine) (now innerWidth : Z)
    (sinkI : EventSink Impression) (sinkE : EventSink Engagement)
    (postId userId engagementType : string) (metadata : Metadata)
    (k : Key) (v : Value)
    (Hkey : md_get metadata k = Some v) :
  let ri := recordImpression st now innerWidth sinkI postId userId metadata in
  let re :=
    recordEngagement st now sinkE postId userId engagementType metadata in
  imp_get (fst (fst ri)) k = Some v
  /\ last (impression_history (snd (fst ri)) userId) = Some (fst (fst ri))
  /\ eng_get (fst (fst re)) k = Some v
  /\ last (history (snd (fst re)) userId) = Some (fst (fst re)).
Proof.
  intros ri re. subst ri re. split; [|split; [|split]].
  - destruct k; simpl in *;
      match type of Hkey with
      | _ <$> ?o = _ => destruct o; simpl in *; congruence
      end.
  - rewrite recordImpression_history. apply last_snoc.
  - destruct k; simpl in *;
      match type of Hkey with
      | _ <$> ?o = _ => destruct o; simpl in *; congruence
      end.
  - rewrite recordEngagement_history. apply last_snoc.
Qed.

(** The timestamp of the metadata replaces the clock reading. *)
Lemma recordEngagement_backdated :
  eng_timestamp
    (fst (fst (recordEngagement new_engine 1700000000000 accepting_sink
                 "p1" "u1" "like" backdated)))
  = 42.
Proof. reflexivity. Qed.

(** ** The theorems at the scenarios *)


Lemma generateFeed_cache_hit_witness :
  fresh_entry (snd first_feed) 2000 "u1" first_entry
  /\ fresh_entry (snd first_feed) 3000 "u1" first_entry
  /\ generateFeed (snd first_feed) 2000 [loud_post] "u1"
                  (mkPreferences (Some true))
     = (fst first_feed, snd first_feed)
  /\ generateFeed
       (snd (generateFeed (snd first_feed) 2000 [loud_post] "u1"
                          (mkPreferences (Some true))))
       3000 [] "u1" no_preferences
     = (fst first_feed, snd first_feed).
Proof.
  assert (H2 : fresh_entry (snd first_feed) 2000 "u1" first_entry)
    by (split; reflexivity).
  assert (H3 : fresh_entry (snd first_feed) 3000 "u1" first_entry)
    by (split; reflexivity).
  split; [exact H2|]. split; [exact H3|].
  exact (generateFeed_cache_hit (snd first_feed) 2000 3000 "u1" first_entry
           [loud_post] [] (mkPreferences (Some true)) no_preferences H2 H3).
Defined.

Lemma generateFeed_length_witness :
  (forall entry, ~ fresh_entry new_engine 0 "u1" entry)
  /\ length (fst (generateFeed new_engine 0 [quiet_post; loud_post] "u1"
                    no_preferences))
     = 2%nat.
Proof.
  assert (Hmiss : forall entry, ~ fresh_entry new_engine 0 "u1" entry).
  { intros entry [Hlook _]. vm_compute in Hlook. discriminate. }
  split; [exact Hmiss|].
  exact (proj1 (generateFeed_length new_engine 0 [quiet_post; loud_post]
                  "u1" no_preferences Hmiss)).
Defined.

Lemma getRecommendedPosts_cold_start_witness :
  history new_engine "u1" = []
  /\ getRecommendedPosts new_engine 0 [quiet_post; loud_post] "u1" None
     = inl (getTrendingPosts 0 [quiet_post; loud_post] None).
Proof.
  split; [reflexivity|].
  apply (getRecommendedPosts_cold_start new_engine 0
           [quiet_post; loud_post] "u1" None).
  reflexivity.
Defined.

Lemma fresh_post_outranks_old_post_witness :
  createdAt (post_A 172800000) = 172800000
  /\ counter likes (post_A 172800000) = 100%N
  /\ counter reposts (post_A 172800000) = 0%N
  /\ counter replies (post_A 172800000) = 0%N
  /\ createdAt (post_B 172800000) = 172800000 - 48 * 3600000
  /\ counter likes (post_B 172800000) = 10%N
  /\ counter reposts (post_B 172800000) = 0%N
  /\ counter replies (post_B 172800000) = 0%N
  /\ (calculatePostScore reader_elsewhere 172800000 (post_B 172800000) "u1"
                         no_preferences
      < calculatePostScore reader_elsewhere 172800000 (post_A 172800000)
                           "u1" no_preferences)%R.
Proof.
  do 8 (split; [reflexivity|]).
  apply (fresh_post_outranks_old_post reader_elsewhere 172800000 "u1"
           no_preferences (post_A 172800000) (post_B 172800000));
    reflexivity.
Defined.

Lemma getPostPopularity_spec_witness :
  engagementCount quiet_twin = engagementCount quiet_post
  /\ impressionCount quiet_twin = impressionCount quiet_post
  /\ popularity_of_rate (spec_rate quiet_post) (getPostPopularity quiet_post)
  /\ getPostPopularity quiet_twin = getPostPopularity quiet_post.
Proof.
  split; [reflexivity|]. split; [reflexivity|].
  apply (getPostPopularity_spec quiet_post quiet_twin); reflexivity.
Defined.

Lemma metadata_overrides_witness :
  md_get backdated k_timestamp = Some (VTime 42)
  /\ imp_get
       (fst (fst (recordImpression new_engine 1700000000000 1280
                    accepting_sink "p1" "u1" backdated)))
       k_timestamp
     = Some (VTime 42)
  /\ eng_get
       (fst (fst (recordEngagement new_engine 1700000000000 accepting_sink
                    "p1" "u1" "like" backdated)))
       k_timestamp
     = Some (VTime 42).
Proof.
  split; [reflexivity|].
  destruct (metadata_overrides new_engine 1700000000000 1280
              accepting_sink accepting_sink "p1" "u1" "like" backdated
              k_timestamp (VTime 42) eq_refl) as (Hi & _ & He & _).
  split; [exact Hi | exact He].
Defined.

(** ** More about the scores *)

Lemma recency_exp now post :
  calculateRecencyScore now post
  = exp (- IZR (now - createdAt post) / 86400000).
Proof.
  unfold calculateRecencyScore. cbv zeta. f_equal. lra.
Qed.

Lemma recency_le_1 now post :
  createdAt post <= now -> (calculateRecencyScore now post <= 1)%R.
Proof.
  intros Hpast. rewrite recency_exp.
  assert (Hage : (0 <= IZR (now - createdAt post))%R)
    by (apply IZR_le; lia).
  rewrite <- exp_0.
  destruct (Req_dec (IZR (now - createdAt post)) 0) as [->|Hne].
  - right. f_equal. lra.
  - left. apply exp_increasing. lra.
Qed.

Lemma recency_pos now post : (0 < calculateRecencyScore now post)%R.
Proof. rewrite recency_exp. apply exp_pos. Qed.

Lemma recency_floor now post (days : Z) :
  now - createdAt post <= days * 86400000 ->
  (exp (- IZR days) <= calculateRecencyScore now post)%R.
Proof.
  intros Hage. rewrite recency_exp.
  assert (Hle : (IZR (now - createdAt post) <= IZR days * 86400000)%R).
  { replace 86400000%R with (IZR 86400000) by reflexivity.
    rewrite <- mult_IZR. now apply IZR_le. }
  destruct (Rle_lt_or_eq_dec _ _ Hle) as [Hlt|Heq].
  - left. apply exp_increasing. lra.
  - right. f_equal. lra.
Qed.

Lemma recency_ceiling now post (days : Z) :
  - (days * 86400000) <= now - createdAt post ->
  (calculateRecencyScore now post <= exp (IZR days))%R.
Proof.
  intros Hage. rewrite recency_exp.
  assert (Hle : (- (IZR days * 86400000) <= IZR (now - createdAt post))%R).
  { replace 86400000%R with (IZR 86400000) by reflexivity.
    rewrite <- mult_IZR, <- opp_IZR. now apply IZR_le. }
  destruct (Rle_lt_or_eq_dec _ _ Hle) as [Hlt|Heq].
  - left. apply exp_increasing. lra.
  - right. f_equal. lra.
Qed.

(** X1. The recency score of a post created at most 365 days before the
    clock reading, a range in which [Math.exp] is far from underflow, lies
    in (0, 1], is at least [exp (-365)], and is 1 exactly at the creation
    time. *)
Theorem calculateRecencyScore_range
    (now : Z) (post : Post)
    (Hpast : createdAt post <= now)
    (Hyear : now - createdAt post <= 365 * 86400000) :
  (0 < calculateRecencyScore now post <= 1)%R
  /\ (exp (-365) <= calculateRecencyScore now post)%R
  /\ (calculateRecencyScore now post = 1%R <-> createdAt post = now).
Proof.
  split; [split; [apply recency_pos | now apply recency_le_1]|].
  split; [exact (recency_floor now post 365 Hyear)|].
  rewrite recency_exp. split.
  - intros Hone. rewrite <- exp_0 in Hone. apply exp_inv in Hone.
    assert (Hzero : IZR (now - createdAt post) = 0%R) by lra.
    apply eq_IZR in Hzero. lia.
  - intros ->. rewrite Z.sub_diag.
    replace (- 0 / 86400000)%R with 0%R by lra. apply exp_0.
Qed.

(** X2. Of two posts dated within 365 days of the clock reading, a range in
    which [Math.exp] neither underflows nor overflows, the one created
    later has the strictly higher recency score; both scores lie between
    [exp (-365)] and [exp 365], and the later post scores above 1 exactly
    when it is dated after the clock reading. *)
Theorem calculateRecencyScore_newer
    (now : Z) (older newer : Post)
    (Hnewer : createdAt older < createdAt newer)
    (Hold : now - createdAt older <= 365 * 86400000)
    (Hnew : - (365 * 86400000) <= now - createdAt newer) :
  (calculateRecencyScore now older < calculateRecencyScore now newer)%R
  /\ (exp (-365) <= calculateRecencyScore now older)%R
  /\ (calculateRecencyScore now newer <= exp 365)%R
  /\ (if now <? createdAt newer
      then (1 < calculateRecencyScore now newer)%R
      else (calculateRecencyScore now newer <= 1)%R).
Proof.
  split; [|split; [|split]].
  - rewrite !recency_exp. apply exp_increasing.
    assert (IZR (now - createdAt newer) < IZR (now - createdAt older))%R
      by (apply IZR_lt; lia).
    lra.
  - exact (recency_floor now older 365 Hold).
  - exact (recency_ceiling now newer 365 Hnew).
  - destruct (Z.ltb_spec now (createdAt newer)) as [Hfuture|Hpast].
    + rewrite recency_exp. rewrite <- exp_0 at 1. apply exp_increasing.
      assert (IZR (now - createdAt newer) < 0)%R by (apply IZR_lt; lia).
      lra.
    + now apply recency_le_1.
Qed.

Lemma num_nonneg n : (0 <= num n)%R.
Proof. unfold num. apply IZR_le. lia. Qed.


Lemma num_ge_1 n : n <> 0%N -> (1 <= num n)%R.
Proof. intros Hn. unfold num. apply IZR_le. lia. Qed.

Lemma weighted_mean_range (l r p : R) :
  (0 <= l)%R -> (0 <= r)%R -> (0 <= p)%R ->
  (0 <= (l + 2 * r + 3 * p) / Rmax 1 (l + r + p) <= 3)%R
  /\ ((1 <= l + r + p)%R ->
      (1 <= (l + 2 * r + 3 * p) / Rmax 1 (l + r + p))%R).
Proof.
  intros Hl Hr Hp.
  pose proof (Rmax_l 1 (l + r + p)) as Hmax.
  pose proof (Rmax_r 1 (l + r + p)) as Hsum.
  split; [split|].
  - apply Rmult_le_pos; [lra|].
    left. apply Rinv_0_lt_compat. lra.
  - apply (Rmult_le_reg_r (Rmax 1 (l + r + p))); [lra|].
    unfold Rdiv. rewrite Rmult_assoc, Rinv_l by lra. lra.
  - intros Hone. rewrite Rmax_right by exact Hone.
    apply (Rmult_le_reg_r (l + r + p)); [lra|].
    unfold Rdiv. rewrite Rmult_assoc, Rinv_l by lra. lra.
Qed.

Lemma engagement_score_range post :
  (0 <= calculateEngagementScore post <= 3)%R.
Proof.
  rewrite (engagement_score_of_counts post _ _ _ eq_refl eq_refl eq_refl).
  apply weighted_mean_range; apply num_nonneg.
Qed.


Lemma push_for_lookup_ne {A : Type} (k k' : string) (x : A)
    (m : gmap string (list A)) :
  k <> k' -> push_for k x m !! k' = m !! k'.
Proof.
  intros Hne. unfold push_for. rewrite lookup_alter_ne by exact Hne.
  destruct (m !! k); [reflexivity|]. now rewrite lookup_insert_ne.
Qed.

Lemma recordEngagement_history_ne st now sink postId userId engagementType
    metadata other :
  other <> userId ->
  history
    (snd (fst (recordEngagement st now sink postId userId engagementType
                 metadata))) other
  = history st other.
Proof.
  intros Hne. unfold history. simpl.
  now rewrite push_for_lookup_ne by congruence.
Qed.

Lemma recordImpression_history_ne st now innerWidth sink postId userId
    metadata other :
  other <> userId ->
  impression_history
    (snd (fst (recordImpression st now innerWidth sink postId userId
                 metadata))) other
  = impression_history st other.
Proof.
  intros Hne. unfold impression_history. simpl.
  now rewrite push_for_lookup_ne by congruence.
Qed.




Lemma impression_of_count st now post userId :
  calculateImpressionScore st now post userId
  = (0.95 ^ impression_count st post userId)%R.
Proof.
  unfold calculateImpressionScore, impression_count, impression_history.
  cbv zeta.
  destruct (List.filter _ _) as [|i l] eqn:Hfilter using rev_ind.
  - simpl. lra.
  - rewrite last_snoc. reflexivity.
Qed.

(** X5. The impression score is [0.95 ^ n] for the [n] impressions of the
    post recorded for the user, so it lies in (0, 1]; each recorded
    impression of the post multiplies it by 0.95, and an impression of
    another post, or of another user, leaves it as it was. *)
Theorem recordImpression_impression_score
    (st : Engine) (now now' innerWidth : Z) (sink : EventSink Impression)
    (postId userId : string) (metadata : Metadata)
    (post : Post) (other : string)
    (Hother : other <> userId) :
  let r := recordImpression st now innerWidth sink postId userId metadata in
  (0 < calculateImpressionScore st now' post userId <= 1)%R
  /\ calculateImpressionScore (snd (fst r)) now' post userId
     = (if String.eqb (imp_postId (fst (fst r))) (id post)
        then 0.95 * calculateImpressionScore st now' post userId
        else calculateImpressionScore st now' post userId)%R
  /\ calculateImpressionScore (snd (fst r)) now' post other
     = calculateImpressionScore st now' post other.
Proof.
  intros r. subst r. rewrite !impression_of_count.
  unfold impression_count.
  rewrite recordImpression_history.
  rewrite (recordImpression_history_ne _ _ _ _ _ _ _ other Hother).
  split; [|split; [|reflexivity]].
  - split.
    + apply pow_lt. lra.
    + set (n := length _). rewrite <- (pow1 n). apply pow_incr. lra.
  - rewrite List.filter_app, length_app. cbn [List.filter].
    destruct (String.eqb _ (id post)); cbn [length].
    + rewrite Nat.add_1_r. simpl. lra.
    + now rewrite Nat.add_0_r.
Qed.

(** X6. The score of every post is strictly positive, and for a post that
    is not dated in the future it is at most 2.2, or 2.64 with
    [boostRecent]. *)
Theorem calculatePostScore_range
    (st : Engine) (now : Z) (post : Post) (userId : string)
    (preferences : Preferences) :
  (0 < calculatePostScore st now post userId preferences)%R
  /\ (createdAt post <= now ->
      (calculatePostScore st now post userId preferences
       <= (if Js.truthy (boostRecent preferences) then 2.64 else 2.2))%R).
Proof.
  rewrite post_score_formula.
  pose proof (engagement_score_range post).
  pose proof (recency_pos now post).
  pose proof (diversity_bounds st post userId).
  split.
  - destruct (Js.truthy (boostRecent preferences)); nra.
  - intros Hpast. pose proof (recency_le_1 now post Hpast).
    destruct (Js.truthy (boostRecent preferences)); nra.
Qed.

(** ** More about the feed and its cache *)

Lemma descending_app_le {A : Type} (key : A -> R) (l1 l2 : list A) k r :
  descending key (l1 ++ l2) -> In k l1 -> In r l2 -> (key r <= key k)%R.
Proof.
  unfold descending.
  induction l1 as [|x l1 IH]; intros Hl Hk Hr; [contradiction|].
  simpl in Hl. apply StronglySorted_inv in Hl as [Hl Hx].
  destruct Hk as [->|Hk].
  - rewrite List.Forall_forall in Hx. apply Hx.
    apply in_or_app. now right.
  - now apply IH.
Qed.

Lemma descending_split {A : Type} (key : A -> R) (n : nat) (l : list A) :
  descending key l -> dominated key (firstn n l) (skipn n l).
Proof.
  intros Hl. rewrite <- (firstn_skipn n l) in Hl.
  unfold dominated. apply List.Forall_forall. intros r Hr.
  apply List.Forall_forall. intros k Hk.
  now apply (descending_app_le key _ _ k r Hl).
Qed.

Lemma generateFeed_miss_scored st now allPosts userId preferences :
  (forall entry, ~ fresh_entry st now userId entry) ->
  fst (generateFeed st now allPosts userId preferences)
  = Js.slice0 50 (Js.sort by_score (scored st now userId preferences allPosts)).
Proof.
  intros Hmiss. now rewrite generateFeed_miss by exact Hmiss.
Qed.

(** X7. Without a cache entry to serve, the feed is in descending order of
    score, and together with the posts it leaves out it is a rearrangement
    of the collection, each post with its score; no post that is left out
    scores higher than a post of the feed. *)
Theorem generateFeed_ranked
    (st : Engine) (now : Z) (allPosts : list Post) (userId : string)
    (preferences : Preferences)
    (Hmiss : forall entry, ~ fresh_entry st now userId entry) :
  let ranked := fst (generateFeed st now allPosts userId preferences) in
  descending score ranked
  /\ exists rest : list ScoredPost,
       Permutation (ranked ++ rest)
                   (scored st now userId preferences allPosts)
       /\ length rest = (length allPosts - 50)%nat
       /\ dominated score ranked rest.
Proof.
  intros ranked. subst ranked.
  rewrite generateFeed_miss_scored by exact Hmiss.
  set (sorted := Js.sort by_score _).
  assert (Hsorted : descending score sorted)
    by apply (sort_descending score).
  split; [now apply descending_slice0|].
  exists (skipn 50 sorted). split; [|split].
  - unfold Js.slice0. rewrite firstn_skipn. apply sort_perm.
  - rewrite length_skipn. unfold sorted.
    rewrite sort_length. unfold scored. now rewrite length_map.
  - now apply descending_split.
Qed.

Lemma generateFeed_served st st' now allPosts userId preferences entry :
  feedCache st' = feedCache st ->
  fresh_entry st now userId entry ->
  generateFeed st' now allPosts userId preferences = (feed entry, st').
Proof.
  intros Hcache [Hlook Hage]. apply generateFeed_hit.
  split; [now rewrite Hcache | exact Hage].
Qed.

(** X8. Recording an impression or an engagement does not invalidate the
    cache: while the entry of a user is less than 3600000 ms old, the
    cached feed is served as it is after either call, for whichever user
    the event was recorded. *)
Theorem generateFeed_stale_after_record
    (st : Engine) (now now' innerWidth : Z)
    (sinkI : EventSink Impression) (sinkE : EventSink Engagement)
    (postId recorder engagementType : string) (metadata : Metadata)
    (allPosts : list Post) (userId : string) (preferences : Preferences)
    (entry : CacheEntry)
    (Hfresh : fresh_entry st now userId entry) :
  fst (generateFeed
         (snd (fst (recordImpression st now' innerWidth sinkI postId recorder
                      metadata)))
         now allPosts userId preferences)
  = feed entry
  /\ fst (generateFeed
            (snd (fst (recordEngagement st now' sinkE postId recorder
                         engagementType metadata)))
            now allPosts userId preferences)
     = feed entry.
Proof.
  split.
  - now erewrite generateFeed_served by (try exact Hfresh; reflexivity).
  - now erewrite generateFeed_served by (try exact Hfresh; reflexivity).
Qed.

(** X9. A cache entry expires when it is 3600000 ms old: a call at that
    age or later computes the ranking anew, from the posts and preferences
    of that call, and stores it under the new clock reading. *)
Theorem generateFeed_expiry
    (st : Engine) (now now' : Z) (allPosts allPosts' : list Post)
    (userId : string) (preferences preferences' : Preferences)
    (Hmiss : forall entry, ~ fresh_entry st now userId entry)
    (Hexpired : 3600000 <= now' - now) :
  let first := generateFeed st now allPosts userId preferences in
  let second := generateFeed (snd first) now' allPosts' userId preferences' in
  fst second
  = Js.slice0 50
      (Js.sort by_score (scored st now' userId preferences' allPosts'))
  /\ feedCache (snd second) !! cacheKey_of userId
     = Some (mkCacheEntry (fst second) now').
Proof.
  intros first second. subst first second.
  rewrite (generateFeed_miss _ _ allPosts _ _ Hmiss). cbv zeta.
  set (ranked := Js.slice0 50 _). cbn [snd].
  set (st1 := mkEngine _ _ _).
  assert (Hmiss' : forall entry, ~ fresh_entry st1 now' userId entry).
  { intros entry [Hlook Hage]. unfold st1 in Hlook. cbn [feedCache] in Hlook.
    rewrite lookup_insert_eq in Hlook. injection Hlook as <-.
    cbn [timestamp] in Hage. lia. }
  rewrite (generateFeed_miss _ _ allPosts' _ _ Hmiss'). cbv zeta.
  cbn [fst snd feedCache]. split; [reflexivity|].
  apply lookup_insert_eq.
Qed.

Lemma cacheKey_of_inj userId userId' :
  cacheKey_of userId = cacheKey_of userId' -> userId = userId'.
Proof. intros Heq. cbv in Heq. congruence. Qed.

Lemma score_same_histories st st' now post userId preferences :
  userImpressions st' = userImpressions st ->
  userEngagements st' = userEngagements st ->
  calculatePostScore st' now post userId preferences
  = calculatePostScore st now post userId preferences.
Proof.
  intros Himp Heng.
  unfold calculatePostScore, calculateDiversityScore,
    calculateImpressionScore. now rewrite Himp, Heng.
Qed.

Lemma fresh_or_not st now userId :
  (exists entry, fresh_entry st now userId entry)
  \/ (forall entry, ~ fresh_entry st now userId entry).
Proof.
  unfold fresh_entry.
  destruct (feedCache st !! cacheKey_of userId) as [entry|];
    [|right; intros entry [Hlook _]; discriminate].
  destruct (Z.lt_ge_cases (now - timestamp entry) 3600000) as [Hage|Hage].
  - left. now exists entry.
  - right. intros entry' [Hlook Hage']. injection Hlook as <-. lia.
Qed.

Lemma generateFeed_same_list st st' now allPosts userId preferences :
  userImpressions st' = userImpressions st ->
  userEngagements st' = userEngagements st ->
  feedCache st' !! cacheKey_of userId = feedCache st !! cacheKey_of userId ->
  fst (generateFeed st' now allPosts userId preferences)
  = fst (generateFeed st now allPosts userId preferences).
Proof.
  intros Himp Heng Hcache.
  destruct (fresh_or_not st now userId) as [[entry Hfresh]|Hmiss].
  - rewrite (generateFeed_hit st _ _ _ _ entry Hfresh).
    rewrite (generateFeed_hit st' _ _ _ _ entry); [reflexivity|].
    destruct Hfresh as [Hlook Hage]. split; [congruence | exact Hage].
  - rewrite !generateFeed_miss_scored; try exact Hmiss.
    + unfold scored. do 2 f_equal. apply map_ext. intros post.
      f_equal. now apply score_same_histories.
    + intros entry [Hlook Hage]. apply (Hmiss entry).
      split; [congruence | exact Hage].
Qed.

Lemma generateFeed_histories st now allPosts userId preferences :
  userImpressions (snd (generateFeed st now allPosts userId preferences))
  = userImpressions st
  /\ userEngagements (snd (generateFeed st now allPosts userId preferences))
     = userEngagements st.
Proof.
  destruct (fresh_or_not st now userId) as [[entry Hfresh]|Hmiss].
  - rewrite (generateFeed_hit st _ _ _ _ entry Hfresh). now split.
  - rewrite generateFeed_miss by exact Hmiss. now split.
Qed.

Lemma generateFeed_cache_ne st now allPosts userId preferences k :
  k <> cacheKey_of userId ->
  feedCache (snd (generateFeed st now allPosts userId preferences)) !! k
  = feedCache st !! k.
Proof.
  intros Hne.
  destruct (fresh_or_not st now userId) as [[entry Hfresh]|Hmiss].
  - now rewrite (generateFeed_hit st _ _ _ _ entry Hfresh).
  - rewrite generateFeed_miss by exact Hmiss. cbv zeta. cbn [snd feedCache].
    now rewrite lookup_insert_ne by congruence.
Qed.

(** X10. The cache is per user: generating the feed of one user neither
    changes the cache entry of another user nor the feed that other user
    is given next. *)
Theorem generateFeed_other_user
    (st : Engine) (now now' : Z) (allPosts allPosts' : list Post)
    (userId other : string) (preferences preferences' : Preferences)
    (Hother : other <> userId) :
  let st' := snd (generateFeed st now allPosts userId preferences) in
  feedCache st' !! cacheKey_of other = feedCache st !! cacheKey_of other
  /\ fst (generateFeed st' now' allPosts' other preferences')
     = fst (generateFeed st now' allPosts' other preferences').
Proof.
  intros st'. subst st'.
  assert (Hkey : cacheKey_of other <> cacheKey_of userId)
    by (intros Heq; now apply cacheKey_of_inj in Heq).
  pose proof (generateFeed_cache_ne st now allPosts userId preferences _ Hkey)
    as Hcache.
  split; [exact Hcache|].
  apply generateFeed_same_list; try exact Hcache;
    apply generateFeed_histories.
Qed.

(** ** Clearing the cache *)

(** X11. After [clearCache(userId)] for a user with a non-empty identifier
    the next [generateFeed] of that user is computed anew, from the posts
    and the preferences of that call, whatever the cache held before. *)
Theorem clearCache_then_generateFeed
    (st : Engine) (now : Z) (allPosts : list Post) (userId : string)
    (preferences : Preferences)
    (Hid : userId <> "") :
  fst (generateFeed (clearCache st (Some userId)) now allPosts userId
                    preferences)
  = Js.slice0 50
      (Js.sort by_score (scored st now userId preferences allPosts)).
Proof.
  rewrite generateFeed_miss_scored; [reflexivity|].
  intros entry [Hlook _]. unfold clearCache in Hlook. cbn in Hlook.
  apply String.eqb_neq in Hid. rewrite Hid in Hlook. cbn in Hlook.
  rewrite lookup_delete_eq in Hlook. discriminate.
Qed.

(** X12. [clearCache(userId)] with a non-empty identifier removes the entry
    of that user only; without an argument, and also with the empty string
    as the identifier, it removes the entries of all users. The histories
    are never touched. *)
Theorem clearCache_scope
    (st : Engine) (userId other : string)
    (Hid : userId <> "")
    (Hother : other <> userId) :
  feedCache (clearCache st (Some userId)) !! cacheKey_of userId = None
  /\ feedCache (clearCache st (Some userId)) !! cacheKey_of other
     = feedCache st !! cacheKey_of other
  /\ feedCache (clearCache st None) = ∅
  /\ feedCache (clearCache st (Some "")) = ∅
  /\ (forall u : option string,
        userImpressions (clearCache st u) = userImpressions st
        /\ userEngagements (clearCache st u) = userEngagements st).
Proof.
  unfold clearCache. cbn.
  apply String.eqb_neq in Hid. rewrite Hid. cbn.
  split; [apply lookup_delete_eq|].
  split; [|auto].
  apply lookup_delete_ne. intros Heq. apply cacheKey_of_inj in Heq.
  congruence.
Qed.

Lemma slice0_length_le {A : Type} (n : nat) (l : list A) :
  (length (Js.slice0 n l) <= n)%nat.
Proof. unfold Js.slice0. rewrite length_firstn. apply Nat.le_min_l. Qed.

(** ** More about trending and recommended posts *)

Lemma sort_descending_id {A : Type} (key : A -> R) (l : list A) :
  descending key l -> Js.sort (fun a b => (key b - key a)%R) l = l.
Proof.
  unfold descending, Js.sort.
  induction l as [|x l IH]; intros Hl; [reflexivity|].
  apply StronglySorted_inv in Hl as [Hl Hx].
  simpl. rewrite (IH Hl).
  destruct l as [|y l]; [reflexivity|]. simpl.
  apply Forall_inv in Hx.
  destruct (Rlt_dec 0 (key y - key x)); [lra|reflexivity].
Qed.

(** X14. When the collection already is in descending order of score,
    posts with equal scores included, the feed is the first 50 posts in the
    order of the collection: the sort never swaps posts of equal score. *)
Theorem generateFeed_keeps_order
    (st : Engine) (now : Z) (allPosts : list Post) (userId : string)
    (preferences : Preferences)
    (Hmiss : forall entry, ~ fresh_entry st now userId entry)
    (Hordered :
       descending score (scored st now userId preferences allPosts)) :
  fst (generateFeed st now allPosts userId preferences)
  = firstn 50 (scored st now userId preferences allPosts).
Proof.
  rewrite generateFeed_miss_scored by exact Hmiss.
  unfold Js.slice0. f_equal.
  now apply (sort_descending_id score).
Qed.

(** X15. [getTrendingPosts] returns [min (|allPosts|, limit)] posts, 10 at
    most without a limit, in descending order of trend score; together with
    the posts it leaves out they are a rearrangement of the collection,
    and no post that is left out has a higher trend score than a post that
    is returned. *)
Theorem getTrendingPosts_ranked
    (now : Z) (allPosts : list Post) (limit : option nat) :
  let ranked := getTrendingPosts now allPosts limit in
  length ranked = Nat.min (length allPosts) (default 10%nat limit)
  /\ descending trendScore ranked
  /\ exists rest : list TrendingPost,
       Permutation (ranked ++ rest) (trend_scored now allPosts)
       /\ dominated trendScore ranked rest.
Proof.
  intros ranked. subst ranked. unfold getTrendingPosts. cbv zeta.
  fold (trend_scored now allPosts).
  set (sorted := Js.sort by_trendScore _).
  assert (Hsorted : descending trendScore sorted)
    by apply (sort_descending trendScore).
  split; [|split].
  - unfold Js.slice0, sorted.
    rewrite length_firstn, sort_length. unfold trend_scored.
    rewrite length_map. apply Nat.min_comm.
  - now apply descending_slice0.
  - exists (skipn (default 10%nat limit) sorted). split.
    + unfold Js.slice0. rewrite firstn_skipn. apply sort_perm.
    + now apply descending_split.
Qed.



(** X17. For a user with history [getRecommendedPosts] returns the first
    [limit] candidates of the collection, 10 without a limit, rearranged in
    descending order of score: a candidate further down the collection is
    not returned, whatever its score. *)
Theorem getRecommendedPosts_first_candidates
    (st : Engine) (now : Z) (allPosts : list Post) (userId : string)
    (limit : option nat)
    (Hwarm : history st userId <> []) :
  exists ranked : list ScoredPost,
    getRecommendedPosts st now allPosts userId limit = inr ranked
    /\ Permutation (map sp_post ranked)
                   (firstn (default 10%nat limit)
                           (candidates st allPosts userId))
    /\ descending score ranked
    /\ Forall
         (fun r =>
            score r
            = calculatePostScore st now (sp_post r) userId no_preferences)
         ranked
    /\ length ranked
       = Nat.min (default 10%nat limit)
                 (length (candidates st allPosts userId)).
Proof.
  rewrite getRecommendedPosts_warm by exact Hwarm.
  eexists. split; [reflexivity|]. split; [|split; [|split]].
  - rewrite sort_perm, map_map. cbn [sp_post].
    now rewrite map_id.
  - apply (sort_descending score).
  - eapply Permutation_Forall; [symmetry; apply sort_perm|].
    apply List.Forall_forall. intros r Hr.
    now apply in_map_iff in Hr as [post [<- _]].
  - rewrite sort_length. unfold Js.slice0.
    now rewrite length_map, length_firstn.
Qed.

(** X18. When none of the posts the user engaged with is in the collection,
    there is no author to avoid, and the comparison with the missing name
    drops exactly the posts that carry no [displayName]: the posts returned
    are the first [limit] posts of the collection that carry one, rearranged
    in descending order of score. *)
Theorem getRecommendedPosts_engaged_elsewhere
    (st : Engine) (now : Z) (allPosts : list Post) (userId : string)
    (limit : option nat)
    (Hwarm : history st userId <> [])
    (Helsewhere :
       Forall (fun p => ~ In (id p) (map eng_postId (history st userId)))
              allPosts) :
  exists ranked : list ScoredPost,
    getRecommendedPosts st now allPosts userId limit = inr ranked
    /\ Permutation (map sp_post ranked)
                   (firstn (default 10%nat limit)
                           (List.filter has_displayName allPosts))
    /\ descending score ranked
    /\ Forall
         (fun r =>
            score r
            = calculatePostScore st now (sp_post r) userId no_preferences)
         ranked.
Proof.
  rewrite getRecommendedPosts_warm by exact Hwarm.
  eexists. split; [reflexivity|]. split; [|split].
  - rewrite sort_perm, map_map. cbn [sp_post].
    rewrite map_id. unfold Js.slice0.
    replace (candidates st allPosts userId)
      with (List.filter has_displayName allPosts); [reflexivity|].
    unfold candidates. cbv zeta.
    set (ids := map eng_postId (history st userId)) in *.
    assert (Hnone :
      List.filter (fun p => Js.includes ids (id p)) allPosts = []).
    { clear -Helsewhere. induction Helsewhere as [|p l Hp _ IH];
        [reflexivity|].
      simpl. apply includes_false in Hp. now rewrite Hp. }
    rewrite Hnone. cbn [head mbind option_bind].
    apply filter_ext_in. intros p Hp.
    rewrite List.Forall_forall in Helsewhere.
    apply Helsewhere, includes_false in Hp. rewrite Hp.
    unfold has_displayName. now destruct (displayName p).
  - apply (sort_descending score).
  - eapply Permutation_Forall; [symmetry; apply sort_perm|].
    apply List.Forall_forall. intros r Hr.
    now apply in_map_iff in Hr as [post [<- _]].
Qed.

(** ** Statistics *)

Lemma count_type_snoc t l e :
  count_type t (l ++ [e])
  = (count_type t l + Nat.b2n (String.eqb (eng_type e) t))%nat.
Proof.
  unfold count_type. rewrite List.filter_app, length_app. cbn [List.filter].
  now destruct (String.eqb (eng_type e) t).
Qed.

Lemma count_device_snoc d l i :
  count_device d (l ++ [i])
  = (count_device d l + Nat.b2n (String.eqb (imp_deviceType i) d))%nat.
Proof.
  unfold count_device. rewrite List.filter_app, length_app.
  cbn [List.filter]. now destruct (String.eqb (imp_deviceType i) d).
Qed.

(** X19. [recordEngagement] raises the total of the engagements of the
    user by one and the class of the type of the event by one; the other
    classes and the impression side of the statistics stay as they were.
    An event whose type is none of like, repost, reply and share raises the
    total only. *)
Theorem recordEngagement_statistics
    (st : Engine) (now : Z) (sink : EventSink Engagement)
    (postId userId engagementType : string) (metadata : Metadata) :
  let r := recordEngagement st now sink postId userId engagementType
             metadata in
  let t := eng_type (fst (fst r)) in
  let before := getStatistics st userId in
  let after := getStatistics (snd (fst r)) userId in
  let class (f : Stats.EngagementBreakdown -> nat) (name : string) :=
    f (Stats.engagementBreakdown after)
    = (f (Stats.engagementBreakdown before)
       + Nat.b2n (String.eqb t name))%nat in
  Stats.totalEngagements after = S (Stats.totalEngagements before)
  /\ class Stats.likes "like"
  /\ class Stats.reposts "repost"
  /\ class Stats.replies "reply"
  /\ class Stats.shares "share"
  /\ Stats.totalImpressions after = Stats.totalImpressions before
  /\ Stats.averageViewDuration after = Stats.averageViewDuration before
  /\ Stats.deviceDistribution after = Stats.deviceDistribution before.
Proof.
  intros r t before after class. subst r t before after class.
  unfold getStatistics. cbv zeta.
  fold (history st userId).
  match goal with
  | |- context [userEngagements ?s !! userId] =>
      fold (history s userId)
  end.
  rewrite recordEngagement_history.
  cbn [Stats.totalEngagements Stats.totalImpressions
       Stats.engagementBreakdown Stats.deviceDistribution
       Stats.averageViewDuration Stats.likes Stats.reposts Stats.replies
       Stats.shares].
  rewrite !count_type_snoc, length_app. cbn [length].
  repeat split; try reflexivity. lia.
Qed.

Lemma listed_type_once t :
  (Nat.b2n (String.eqb t "like") + Nat.b2n (String.eqb t "repost")
   + Nat.b2n (String.eqb t "reply") + Nat.b2n (String.eqb t "share")
   + Nat.b2n (negb (listed_type t)) = 1)%nat.
Proof.
  unfold listed_type.
  destruct (String.eqb_spec t "like") as [->|]; [reflexivity|].
  destruct (String.eqb_spec t "repost") as [->|]; [reflexivity|].
  destruct (String.eqb_spec t "reply") as [->|]; [reflexivity|].
  destruct (String.eqb_spec t "share") as [->|]; reflexivity.
Qed.

Lemma listed_device_once d :
  (Nat.b2n (String.eqb d "mobile") + Nat.b2n (String.eqb d "tablet")
   + Nat.b2n (String.eqb d "desktop")
   + Nat.b2n (negb (listed_device d)) = 1)%nat.
Proof.
  unfold listed_device.
  destruct (String.eqb_spec d "mobile") as [->|]; [reflexivity|].
  destruct (String.eqb_spec d "tablet") as [->|]; [reflexivity|].
  destruct (String.eqb_spec d "desktop") as [->|]; reflexivity.
Qed.

Lemma filter_length_cons {A : Type} (f : A -> bool) x l :
  length (List.filter f (x :: l))
  = (Nat.b2n (f x) + length (List.filter f l))%nat.
Proof. simpl. now destruct (f x). Qed.

(** X20. The classes of the statistics do not overlap, and an event with a
    type or a device outside the lists is in the total but in no class:
    the four engagement classes and the engagements of other types add up
    to the total of the engagements, and the three device classes and the
    impressions of other devices to the total of the impressions. *)
Theorem getStatistics_classes (st : Engine) (userId : string) :
  let s := getStatistics st userId in
  (Stats.likes (Stats.engagementBreakdown s)
   + Stats.reposts (Stats.engagementBreakdown s)
   + Stats.replies (Stats.engagementBreakdown s)
   + Stats.shares (Stats.engagementBreakdown s)
   + length (List.filter (fun e => negb (listed_type (eng_type e)))
                         (history st userId))
   = Stats.totalEngagements s)%nat
  /\ (Stats.mobile (Stats.deviceDistribution s)
      + Stats.tablet (Stats.deviceDistribution s)
      + Stats.desktop (Stats.deviceDistribution s)
      + length (List.filter
                  (fun i => negb (listed_device (imp_deviceType i)))
                  (impression_history st userId))
      = Stats.totalImpressions s)%nat.
Proof.
  intros s. subst s. unfold getStatistics. cbv zeta.
  fold (history st userId). fold (impression_history st userId).
  cbn [Stats.totalEngagements Stats.totalImpressions
       Stats.engagementBreakdown Stats.deviceDistribution
       Stats.likes Stats.reposts Stats.replies Stats.shares
       Stats.mobile Stats.tablet Stats.desktop].
  unfold count_type, count_device. split.
  - induction (history st userId) as [|e l IH]; [reflexivity|].
    rewrite !filter_length_cons. cbn [length].
    pose proof (listed_type_once (eng_type e)). lia.
  - induction (impression_history st userId) as [|i l IH]; [reflexivity|].
    rewrite !filter_length_cons. cbn [length].
    pose proof (listed_device_once (imp_deviceType i)). lia.
Qed.

(** X21. [recordImpression] with metadata that brings no [deviceType]
    raises the total of the impressions of the user by one and exactly one
    device class by one: mobile below a width of 768, tablet from 768 and
    below 1024, desktop from 1024; the engagement side stays as it was. *)
Theorem recordImpression_statistics
    (st : Engine) (now innerWidth : Z) (sink : EventSink Impression)
    (postId userId : string) (metadata : Metadata)
    (Hdevice : md_deviceType metadata = None) :
  let r := recordImpression st now innerWidth sink postId userId metadata in
  let before := getStatistics st userId in
  let after := getStatistics (snd (fst r)) userId in
  let class (f : Stats.DeviceDistribution -> nat) (here : bool) :=
    f (Stats.deviceDistribution after)
    = (f (Stats.deviceDistribution before) + Nat.b2n here)%nat in
  Stats.totalImpressions after = S (Stats.totalImpressions before)
  /\ class Stats.mobile (innerWidth <? 768)
  /\ class Stats.tablet ((768 <=? innerWidth) && (innerWidth <? 1024))
  /\ class Stats.desktop (1024 <=? innerWidth)
  /\ Stats.totalEngagements after = Stats.totalEngagements before
  /\ Stats.engagementBreakdown after = Stats.engagementBreakdown before.
Proof.
  intros r before after class. subst r before after class.
  unfold getStatistics. cbv zeta.
  fold (impression_history st userId).
  match goal with
  | |- context [userImpressions ?s !! userId] =>
      fold (impression_history s userId)
  end.
  rewrite recordImpression_history.
  cbn [Stats.totalEngagements Stats.totalImpressions
       Stats.engagementBreakdown Stats.deviceDistribution
       Stats.mobile Stats.tablet Stats.desktop].
  rewrite !count_device_snoc, length_app. cbn [length].
  cbn [fst recordImpression imp_deviceType spread_impression].
  rewrite Hdevice. cbn [default imp_deviceType]. unfold getDeviceType.
  destruct (Z.ltb_spec innerWidth 768);
    destruct (Z.ltb_spec innerWidth 1024);
    destruct (Z.leb_spec 768 innerWidth);
    destruct (Z.leb_spec 1024 innerWidth); try lia;
    cbn; repeat split; lia.
Qed.

(** ** Sessions *)

Lemma generateSessionId_nonempty now random36 :
  generateSessionId now random36 <> "".
Proof. discriminate. Qed.

Lemma getOrCreateSessionId_kept sessionStorage now random36 s :
  sessionStorage !! "pulsenote_session_id" = Some s ->
  s <> "" ->
  getOrCreateSessionId sessionStorage now random36 = (s, sessionStorage).
Proof.
  intros Hlook Hs. unfold getOrCreateSessionId. rewrite Hlook.
  unfold string_truthy. apply String.eqb_neq in Hs. now rewrite Hs.
Qed.

Lemma getOrCreateSessionId_created sessionStorage now random36 :
  string_truthy (sessionStorage !! "pulsenote_session_id") = false ->
  getOrCreateSessionId sessionStorage now random36
  = (generateSessionId now random36,
     <["pulsenote_session_id" := generateSessionId now random36]>
       sessionStorage).
Proof.
  intros Hfalsy. unfold getOrCreateSessionId. now rewrite Hfalsy.
Qed.

(** X22. [getOrCreateSessionId] returns a non-empty identifier that is in
    the session storage afterwards, and every later call returns the same
    identifier and leaves the storage as it is, whatever the clock and the
    random digits of that call; the other keys of the storage are not
    touched. *)
Theorem getOrCreateSessionId_stable
    (sessionStorage : gmap string string) (now now' : Z)
    (random36 random36' : string) :
  let r := getOrCreateSessionId sessionStorage now random36 in
  fst r <> ""
  /\ snd r !! "pulsenote_session_id" = Some (fst r)
  /\ getOrCreateSessionId (snd r) now' random36' = r
  /\ delete "pulsenote_session_id" (snd r)
     = delete "pulsenote_session_id" sessionStorage.
Proof.
  intros r. subst r.
  destruct (string_truthy (sessionStorage !! "pulsenote_session_id"))
    eqn:Htruthy.
  - destruct (sessionStorage !! "pulsenote_session_id") as [s|] eqn:Hlook;
      [|discriminate].
    assert (Hs : s <> "").
    { unfold string_truthy in Htruthy. apply String.eqb_neq.
      now destruct (String.eqb s ""). }
    rewrite (getOrCreateSessionId_kept _ _ _ s Hlook Hs). cbn [fst snd].
    split; [exact Hs|]. split; [exact Hlook|]. split; [|reflexivity].
    now apply getOrCreateSessionId_kept.
  - rewrite (getOrCreateSessionId_created _ _ _ Htruthy). cbn [fst snd].
    split; [apply generateSessionId_nonempty|].
    split; [apply lookup_insert_eq|].
    split; [|apply delete_insert_eq].
    apply getOrCreateSessionId_kept;
      [apply lookup_insert_eq | apply generateSessionId_nonempty].
Qed.

(** ** Algorithm variants *)

Lemma variant_control st now allPosts userId :
  testAlgorithmVariant st now allPosts userId None
  = (inr (fst (generateFeed st now allPosts userId no_preferences)),
     allPosts,
     snd (generateFeed st now allPosts userId no_preferences)).
Proof. reflexivity. Qed.

Lemma variant_diversity_focus st now allPosts userId :
  testAlgorithmVariant st now allPosts userId (Some "diversity_focus")
  = (inr (fst (generateFeed st now allPosts userId
                 (mkPreferences (Some true)))),
     allPosts,
     snd (generateFeed st now allPosts userId (mkPreferences (Some true)))).
Proof. reflexivity. Qed.

(** X23. The variants control and diversity_focus share the cache entry of
    the user: whichever of the two runs first on an engine without a fresh
    entry decides the feed, and the other one, run within 3600000 ms,
    returns that same feed, so the boost of diversity_focus is not applied
    after control, and stays applied in control after diversity_focus. *)
Theorem testAlgorithmVariant_shared_cache
    (st : Engine) (now now' : Z) (allPosts allPosts' : list Post)
    (userId : string)
    (Hmiss : forall entry, ~ fresh_entry st now userId entry)
    (Hage : now' - now < 3600000) :
  let control := testAlgorithmVariant st now allPosts userId None in
  let focus :=
    testAlgorithmVariant st now allPosts userId (Some "diversity_focus") in
  fst (fst (testAlgorithmVariant (snd control) now' allPosts' userId
              (Some "diversity_focus")))
  = fst (fst control)
  /\ fst (fst (testAlgorithmVariant (snd focus) now' allPosts' userId None))
     = fst (fst focus).
Proof.
  intros control focus. subst control focus.
  rewrite !variant_control, !variant_diversity_focus. cbn [fst snd].
  split; f_equal.
  - now rewrite (generateFeed_populate_then_hit st now now' allPosts
                   allPosts' userId no_preferences _ Hmiss Hage).
  - now rewrite (generateFeed_populate_then_hit st now now' allPosts
                   allPosts' userId (mkPreferences (Some true)) _ Hmiss
                   Hage).
Qed.

(** ** Persistence outcomes *)

Lemma persist_fulfilled {E : Type} endpoint failed (sink : EventSink E)
    (event : E) json :
  fst (persist endpoint failed sink event) = Fulfilled json
  <-> exists status,
        sink endpoint event = Response status (Some json)
        /\ 200 <= status <= 299.
Proof.
  unfold persist, response_ok.
  destruct (sink endpoint event) as [reason|status [body|]]; cbn.
  - split; [discriminate | intros [s [Heq _]]; discriminate].
  - destruct (Z.leb_spec 200 status); destruct (Z.leb_spec status 299);
      cbn; split; try discriminate;
      try (intros [s [Heq Hs]]; injection Heq as -> ->; lia).
    + intros Heq. injection Heq as ->. exists status. split; [reflexivity|lia].
    + intros [s [Heq Hs]]. now injection Heq as -> ->.
  - destruct (negb _); cbn;
      (split; [discriminate | intros [s [Heq _]]; discriminate]).
Qed.

(** X25. A persistence call is fulfilled exactly when the sink answers with
    a status from 200 to 299 and a body that parses; it then writes nothing
    to the console. A network failure, any other status (with or without a
    body) and an unreadable body are all rejections. *)
Theorem persist_fulfilled_iff
    (sinkI : EventSink Impression) (impression : Impression)
    (sinkE : EventSink Engagement) (engagement : Engagement)
    (json : string) :
  (persistImpression sinkI impression = (Fulfilled json, [])
   <-> exists status,
         sinkI "/.netlify/functions/record-impression" impression
         = Response status (Some json)
         /\ 200 <= status <= 299)
  /\ (persistEngagement sinkE engagement = (Fulfilled json, [])
      <-> exists status,
            sinkE "/.netlify/functions/record-engagement" engagement
            = Response status (Some json)
            /\ 200 <= status <= 299).
Proof.
  assert (Hpair : forall (E : Type) endpoint failed (sink : EventSink E) ev,
             persist endpoint failed sink ev = (Fulfilled json, [])
             <-> fst (persist endpoint failed sink ev) = Fulfilled json).
  { intros E endpoint failed sink ev. split; [now intros ->|].
    unfold persist. destruct (sink endpoint ev) as [reason|status [body|]];
      cbn; try destruct (negb _); cbn; try discriminate.
    now intros ->. }
  unfold persistImpression, persistEngagement.
  split; rewrite Hpair; apply persist_fulfilled.
Qed.

(** ** Frames and histories *)

(** X26. A record method changes the list of one user in one history and
    nothing else: the other history, the feed cache and the lists of the
    other users stay as they were. *)
Theorem record_frame
    (st : Engine) (now innerWidth : Z)
    (sinkI : EventSink Impression) (sinkE : EventSink Engagement)
    (postId userId engagementType : string) (metadata : Metadata)
    (other : string)
    (Hother : other <> userId) :
  let si :=
    snd (fst (recordImpression st now innerWidth sinkI postId userId
                metadata)) in
  let se :=
    snd (fst (recordEngagement st now sinkE postId userId engagementType
                metadata)) in
  (userImpressions si !! other = userImpressions st !! other
   /\ userEngagements si = userEngagements st
   /\ feedCache si = feedCache st)
  /\ (userEngagements se !! other = userEngagements st !! other
      /\ userImpressions se = userImpressions st
      /\ feedCache se = feedCache st).
Proof.
  intros si se. subst si se. cbn [recordImpression recordEngagement fst snd
    userImpressions userEngagements feedCache].
  repeat split; apply push_for_lookup_ne; congruence.
Qed.

Lemma step_histories st st' userId :
  step st st' ->
  exists engagements impressions,
    history st' userId = history st userId ++ engagements
    /\ impression_history st' userId
       = impression_history st userId ++ impressions.
Proof.
  intros Hstep. destruct Hstep as
    [st now w sink p u md | st now sink p u t md
    | st now posts u prefs | st now posts u variant | st u].
  - destruct (decide (userId = u)) as [->|Hne].
    + eexists [], [_]. split; [now rewrite app_nil_r|].
      apply recordImpression_history.
    + exists [], []. rewrite !app_nil_r. split; [reflexivity|].
      now apply recordImpression_history_ne.
  - destruct (decide (userId = u)) as [->|Hne].
    + eexists [_], []. split; [|now rewrite app_nil_r].
      apply recordEngagement_history.
    + exists [], []. rewrite !app_nil_r. split; [|reflexivity].
      now apply recordEngagement_history_ne.
  - exists [], []. rewrite !app_nil_r.
    destruct (generateFeed_histories st now posts u prefs) as [Hi He].
    unfold history, impression_history. now rewrite Hi, He.
  - exists [], []. rewrite !app_nil_r.
    unfold testAlgorithmVariant.
    repeat match goal with
           | |- context [if ?b then _ else _] => destruct b
           end; cbn [snd]; try (split; reflexivity);
      match goal with
      | |- context [generateFeed st now posts u ?prefs] =>
          destruct (generateFeed_histories st now posts u prefs) as [Hi He]
      end;
      unfold history, impression_history; now rewrite Hi, He.
  - exists [], []. rewrite !app_nil_r. split; reflexivity.
Qed.

(** X27. The histories are append-only: over any sequence of calls of the
    methods of the engine, the engagements and the impressions recorded for
    a user before are still there, in the same order, in front of whatever
    was recorded since. *)
Theorem histories_append_only
    (st st' : Engine) (userId : string)
    (Hrun : steps st st') :
  exists engagements impressions,
    history st' userId = history st userId ++ engagements
    /\ impression_history st' userId
       = impression_history st userId ++ impressions.
Proof.
  induction Hrun as [st|st st' st'' _ IH Hstep].
  - exists [], []. now rewrite !app_nil_r.
  - destruct IH as (es & ims & He & Hi).
    destruct (step_histories st' st'' userId Hstep)
      as (es' & ims' & He' & Hi').
    exists (es ++ es'), (ims ++ ims').
    rewrite He', Hi', He, Hi. now rewrite !app_assoc.
Qed.

(** ** Interests *)

Lemma count_of_bump w kw w' :
  count_of (bump w kw) w'
  = (count_of kw w' + Nat.b2n (String.eqb w' w))%nat.
Proof.
  rewrite (String.eqb_sym w' w).
  induction kw as [|[k n] kw IH]; simpl.
  - destruct (String.eqb w w'); reflexivity.
  - destruct (String.eqb_spec k w) as [->|Hkw]; simpl.
    + destruct (String.eqb w w'); simpl; lia.
    + destruct (String.eqb_spec k w') as [->|Hkw'].
      * apply String.eqb_neq in Hkw. rewrite String.eqb_sym in Hkw.
        rewrite Hkw. simpl. lia.
      * exact IH.
Qed.

Lemma keys_bump w kw :
  map fst (bump w kw)
  = if Js.includes (map fst kw) w then map fst kw else map fst kw ++ [w].
Proof.
  unfold Js.includes.
  induction kw as [|[k n] kw IH]; simpl; [reflexivity|].
  rewrite (String.eqb_sym w k).
  destruct (String.eqb k w); simpl; [reflexivity|].
  rewrite IH. now destruct (existsb (String.eqb w) (map fst kw)).
Qed.

Lemma occurrences_snoc w ws w' :
  occurrences w (ws ++ [w'])
  = (occurrences w ws + Nat.b2n (String.eqb w w'))%nat.
Proof.
  unfold occurrences. rewrite List.filter_app, length_app. cbn [List.filter].
  now destruct (String.eqb w w').
Qed.

Lemma bump_counts ws kw w :
  NoDup (map fst kw) ->
  (forall x, In x (map fst kw) <-> In x ws) ->
  (forall x, count_of kw x = occurrences x ws) ->
  NoDup (map fst (bump w kw))
  /\ (forall x, In x (map fst (bump w kw)) <-> In x (ws ++ [w]))
  /\ (forall x, count_of (bump w kw) x = occurrences x (ws ++ [w])).
Proof.
  intros Hnodup Hkeys Hcounts. rewrite keys_bump.
  split; [|split].
  - destruct (Js.includes (map fst kw) w) eqn:Hin; [exact Hnodup|].
    apply includes_false in Hin.
    apply NoDup_app. split; [exact Hnodup|].
    split; [|apply NoDup_singleton].
    intros x Hx Hx'. apply list_elem_of_In in Hx.
    apply list_elem_of_singleton in Hx'. now subst.
  - intros x. rewrite in_app_iff. cbn [In].
    destruct (Js.includes (map fst kw) w) eqn:Hin.
    + apply includes_In in Hin. rewrite Hkeys. split; [tauto|].
      intros [Hx|[<-|[]]]; [exact Hx | now apply Hkeys].
    + rewrite in_app_iff, Hkeys. cbn [In]. tauto.
  - intros x. now rewrite count_of_bump, occurrences_snoc, Hcounts.
Qed.

Lemma bump_all_counts ws' : forall ws kw,
  NoDup (map fst kw) ->
  (forall x, In x (map fst kw) <-> In x ws) ->
  (forall x, count_of kw x = occurrences x ws) ->
  let kw' := fold_left (fun kw w => bump w kw) ws' kw in
  NoDup (map fst kw')
  /\ (forall x, In x (map fst kw') <-> In x (ws ++ ws'))
  /\ (forall x, count_of kw' x = occurrences x (ws ++ ws')).
Proof.
  induction ws' as [|w ws' IH]; intros ws kw Hnodup Hkeys Hcounts; simpl.
  - now rewrite app_nil_r.
  - destruct (bump_counts ws kw w Hnodup Hkeys Hcounts) as (H1 & H2 & H3).
    specialize (IH (ws ++ [w]) (bump w kw) H1 H2 H3). simpl in IH.
    now rewrite <- app_assoc in IH.
Qed.

Lemma count_words_filter length16 ws : forall kw,
  count_words length16 kw ws
  = fold_left (fun kw w => bump w kw)
              (List.filter (fun w => (4 <? length16 w)%nat) ws) kw.
Proof.
  unfold count_words.
  induction ws as [|w ws IH]; intros kw; simpl; [reflexivity|].
  destruct (4 <? length16 w)%nat; simpl; apply IH.
Qed.

Lemma count_posts_flat words length16 posts : forall kw,
  fold_left
    (fun kw post => count_words length16 kw (words (content post))) posts kw
  = fold_left (fun kw w => bump w kw)
      (flat_map
         (fun p =>
            List.filter (fun w => (4 <? length16 w)%nat) (words (content p)))
         posts) kw.
Proof.
  induction posts as [|p posts IH]; intros kw; simpl; [reflexivity|].
  now rewrite fold_left_app, IH, count_words_filter.
Qed.

Lemma count_of_entry kw k n :
  NoDup (map fst kw) -> In (k, n) kw -> count_of kw k = n.
Proof.
  induction kw as [|[k' n'] kw IH]; intros Hnodup Hin; [contradiction|].
  simpl in *. apply NoDup_cons in Hnodup as [Hfresh Hnodup].
  destruct Hin as [Heq|Hin].
  - injection Heq as -> ->. now rewrite String.eqb_refl.
  - destruct (String.eqb_spec k' k) as [->|Hne]; [|now apply IH].
    exfalso. apply Hfresh. apply list_elem_of_In.
    now apply (in_map fst) in Hin.
Qed.

Lemma keywords_counts words length16 st userId allPosts :
  let kw :=
    fold_left
      (fun kw post => count_words length16 kw (words (content post)))
      (List.filter
         (fun p =>
            existsb (fun e => String.eqb (eng_postId e) (id p))
                    (history st userId))
         allPosts) [] in
  let long := long_words words length16 st userId allPosts in
  NoDup (map fst kw)
  /\ (forall x, In x (map fst kw) <-> In x long)
  /\ (forall k n, In (k, n) kw -> n = occurrences k long).
Proof.
  intros kw long. subst kw long. rewrite count_posts_flat.
  fold (long_words words length16 st userId allPosts).
  destruct (bump_all_counts (long_words words length16 st userId allPosts)
              [] [] NoDup_nil_2) as (H1 & H2 & H3);
    try (intros x; simpl; tauto); try reflexivity.
  simpl in *. split; [exact H1|].
  split; [exact H2|].
  intros k n Hin. rewrite <- H3. symmetry.
  apply count_of_entry; [exact H1 | exact Hin].
Qed.

Lemma inferUserInterests_unfold words length16 st userId allPosts :
  inferUserInterests words length16 st userId allPosts
  = map fst
      (Js.slice0 5
         (Js.sort by_count
            (fold_left
               (fun kw post => count_words length16 kw (words (content post)))
               (List.filter
                  (fun p =>
                     existsb (fun e => String.eqb (eng_postId e) (id p))
                             (history st userId))
                  allPosts) []))).
Proof. reflexivity. Qed.

Lemma long_words_origin words length16 st userId allPosts w :
  In w (long_words words length16 st userId allPosts) ->
  (4 < length16 w)%nat
  /\ exists p,
       In p allPosts
       /\ In (id p) (map eng_postId (history st userId))
       /\ In w (words (content p)).
Proof.
  unfold long_words. intros Hw.
  apply in_flat_map in Hw as [p [Hp Hw]].
  apply filter_In in Hp as [Hp Hengaged].
  apply filter_In in Hw as [Hw Hlong].
  split; [now apply Nat.ltb_lt|].
  exists p. split; [exact Hp|]. split; [|exact Hw].
  apply existsb_exists in Hengaged as [e [He Heq]].
  apply String.eqb_eq in Heq. rewrite <- Heq. now apply in_map.
Qed.

(** X28. [inferUserInterests] returns at most 5 keywords, all different;
    each is longer than 4 and is a word of a post of the collection that
    the user engaged with. *)
Theorem inferUserInterests_sound
    (words : string -> list string) (length16 : string -> nat)
    (st : Engine) (userId : string) (allPosts : list Post) :
  let keywords := inferUserInterests words length16 st userId allPosts in
  (length keywords <= 5)%nat
  /\ List.NoDup keywords
  /\ Forall
       (fun k =>
          (4 < length16 k)%nat
          /\ exists p,
               In p allPosts
               /\ In (id p) (map eng_postId (history st userId))
               /\ In k (words (content p)))
       keywords.
Proof.
  intros keywords. subst keywords. rewrite inferUserInterests_unfold.
  destruct (keywords_counts words length16 st userId allPosts)
    as (Hnodup & Hkeys & _).
  set (kw := fold_left _ _ _) in *.
  split; [|split].
  - rewrite length_map. apply slice0_length_le.
  - unfold Js.slice0. rewrite <- firstn_map.
    assert (Hsorted : NoDup (map fst (Js.sort by_count kw)))
      by now rewrite sort_perm.
    rewrite <- (firstn_skipn 5 (map fst (Js.sort by_count kw))) in Hsorted.
    apply NoDup_app in Hsorted as [Hfirst _].
    now apply NoDup_ListNoDup.
  - apply List.Forall_forall. intros k Hk.
    apply (long_words_origin words length16 st userId allPosts).
    apply Hkeys. apply in_map_iff in Hk as [[k' n] [<- Hin]].
    apply In_slice0 in Hin.
    apply (Permutation_in _ (sort_perm by_count kw)) in Hin.
    now apply (in_map fst) in Hin.
Qed.

Lemma descending_map {A B : Type} (f : A -> B) (key : A -> R)
    (key' : B -> R) (l : list A) :
  (forall x, In x l -> key x = key' (f x)) ->
  descending key l -> descending key' (map f l).
Proof.
  unfold descending. intros Hkey Hl.
  induction Hl as [|x l Hl IH Hx]; simpl; constructor.
  - apply IH. intros y Hy. apply Hkey. now right.
  - apply List.Forall_forall. intros b Hb.
    apply in_map_iff in Hb as [y [<- Hy]].
    rewrite List.Forall_forall in Hx.
    rewrite <- !Hkey; [now apply Hx | now left | now right].
Qed.

(** X29. The keywords are ranked by frequency: they come in descending
    order of the number of their occurrences among the long words of the
    engaged posts, no long word that is left out occurs more often than a
    keyword, and with fewer than 5 keywords no long word is left out. *)
Theorem inferUserInterests_ranked
    (words : string -> list string) (length16 : string -> nat)
    (st : Engine) (userId : string) (allPosts : list Post) :
  let long := long_words words length16 st userId allPosts in
  let keywords := inferUserInterests words length16 st userId allPosts in
  descending (fun k => INR (occurrences k long)) keywords
  /\ (forall w k,
        In w long -> ~ In w keywords -> In k keywords ->
        (occurrences w long <= occurrences k long)%nat)
  /\ (forall w, In w long -> (length keywords < 5)%nat -> In w keywords).
Proof.
  intros long keywords. subst long keywords.
  rewrite inferUserInterests_unfold.
  destruct (keywords_counts words length16 st userId allPosts)
    as (Hnodup & Hkeys & Hcounts).
  set (long := long_words words length16 st userId allPosts) in *.
  set (kw := fold_left _ _ _) in *.
  set (sorted := Js.sort by_count kw).
  assert (Hperm : Permutation sorted kw) by apply sort_perm.
  assert (Hdesc : descending (fun a => INR (snd a)) sorted)
    by apply (sort_descending (fun a : string * nat => INR (snd a))).
  assert (Hentry : forall a, In a sorted -> snd a = occurrences (fst a) long).
  { intros [k n] Hin. apply Hcounts.
    now apply (Permutation_in _ Hperm). }
  assert (Hfound : forall w, In w long -> exists n, In (w, n) sorted).
  { intros w Hw. apply Hkeys, in_map_iff in Hw as [[k n] [Heq Hin]].
    simpl in Heq. subst k. exists n.
    now apply (Permutation_in _ (Permutation_sym Hperm)). }
  split; [|split].
  - apply (descending_map fst (fun a => INR (snd a))).
    + intros a Ha. apply In_slice0 in Ha. now rewrite (Hentry a Ha).
    + now apply descending_slice0.
  - intros w k Hw Hout Hk.
    destruct (Hfound w Hw) as [n Hn].
    apply in_map_iff in Hk as [[k' m] [Heq Hm]]. simpl in Heq. subst k'.
    unfold Js.slice0 in *.
    rewrite <- (firstn_skipn 5 sorted) in Hn, Hdesc.
    apply in_app_or in Hn as [Hn|Hn].
    + exfalso. apply Hout. now apply (in_map fst) in Hn.
    + pose proof (descending_app_le _ _ _ _ _ Hdesc Hm Hn) as Hle.
      simpl in Hle. apply INR_le in Hle.
      assert (Hw' : In (w, n) sorted).
      { rewrite <- (firstn_skipn 5 sorted). apply in_or_app. now right. }
      assert (Hk' : In (k, m) sorted).
      { rewrite <- (firstn_skipn 5 sorted). apply in_or_app. now left. }
      apply Hentry in Hw', Hk'. simpl in Hw', Hk'. lia.
  - intros w Hw Hshort. rewrite length_map in Hshort.
    unfold Js.slice0 in *. rewrite length_firstn in Hshort.
    rewrite firstn_all2 by lia.
    destruct (Hfound w Hw) as [n Hn]. now apply (in_map fst) in Hn.
Qed.

(** ** The further theorems at the scenarios *)

Lemma calculateRecencyScore_range_witness :
  createdAt quiet_post <= 5
  /\ 5 - createdAt quiet_post <= 365 * 86400000
  /\ (0 < calculateRecencyScore 5 quiet_post <= 1)%R.
Proof.
  assert (Hpast : createdAt quiet_post <= 5) by (cbn; lia).
  assert (Hyear : 5 - createdAt quiet_post <= 365 * 86400000)
    by (cbn; lia).
  split; [exact Hpast|]. split; [exact Hyear|].
  exact (proj1 (calculateRecencyScore_range 5 quiet_post Hpast Hyear)).
Defined.

Lemma calculateRecencyScore_newer_witness :
  createdAt quiet_post < createdAt quiet_twin
  /\ 50 - createdAt quiet_post <= 365 * 86400000
  /\ - (365 * 86400000) <= 50 - createdAt quiet_twin
  /\ (calculateRecencyScore 50 quiet_post
      < calculateRecencyScore 50 quiet_twin)%R.
Proof.
  assert (Hnewer : createdAt quiet_post < createdAt quiet_twin)
    by (cbn; lia).
  assert (Hold : 50 - createdAt quiet_post <= 365 * 86400000)
    by (cbn; lia).
  assert (Hnew : - (365 * 86400000) <= 50 - createdAt quiet_twin)
    by (cbn; lia).
  split; [exact Hnewer|]. split; [exact Hold|]. split; [exact Hnew|].
  exact (proj1 (calculateRecencyScore_newer 50 quiet_post quiet_twin Hnewer
                  Hold Hnew)).
Defined.



Lemma recordImpression_impression_score_witness :
  "u2" <> "u1"
  /\ (0 < calculateImpressionScore reader_elsewhere 9 loud_post "u1" <= 1)%R.
Proof.
  assert (Hother : "u2" <> "u1") by discriminate.
  split; [exact Hother|].
  exact (proj1 (recordImpression_impression_score reader_elsewhere 2 9 1280
                  offline_sink "erin_1" "u1" no_metadata loud_post "u2"
                  Hother)).
Defined.

Lemma calculatePostScore_range_witness :
  createdAt loud_post <= 7
  /\ (0 < calculatePostScore reader_elsewhere 7 loud_post "u1" no_preferences
      <= 2.2)%R.
Proof.
  assert (Hpast : createdAt loud_post <= 7) by (cbn; lia).
  split; [exact Hpast|].
  destruct (calculatePostScore_range reader_elsewhere 7 loud_post "u1"
              no_preferences) as [Hpos Hceiling].
  split; [exact Hpos | exact (Hceiling Hpast)].
Defined.

Lemma new_engine_miss now userId entry :
  ~ fresh_entry new_engine now userId entry.
Proof. intros [Hlook _]. cbn in Hlook. discriminate. Defined.

Lemma generateFeed_ranked_witness :
  (forall entry, ~ fresh_entry new_engine 0 "u1" entry)
  /\ descending score
       (fst (generateFeed new_engine 0 [quiet_post; loud_post] "u1"
               no_preferences)).
Proof.
  split; [apply new_engine_miss|].
  exact (proj1 (generateFeed_ranked new_engine 0 [quiet_post; loud_post]
                  "u1" no_preferences (new_engine_miss 0 "u1"))).
Defined.

Lemma generateFeed_stale_after_record_witness :
  fresh_entry (snd first_feed) 2000 "u1" first_entry
  /\ fst (generateFeed
            (snd (fst (recordEngagement (snd first_feed) 1500 offline_sink
                         "erin_1" "u1" "like" no_metadata)))
            2000 [loud_post] "u1" no_preferences)
     = feed first_entry.
Proof.
  assert (Hfresh : fresh_entry (snd first_feed) 2000 "u1" first_entry)
    by (split; reflexivity).
  split; [exact Hfresh|].
  exact (proj2 (generateFeed_stale_after_record (snd first_feed) 2000 1500
                  1280 offline_sink offline_sink "erin_1" "u1" "like"
                  no_metadata [loud_post] "u1" no_preferences first_entry
                  Hfresh)).
Defined.

Lemma generateFeed_expiry_witness :
  (forall entry, ~ fresh_entry new_engine 0 "u1" entry)
  /\ 3600000 <= 3600000 - 0
  /\ fst (generateFeed
            (snd (generateFeed new_engine 0 [quiet_post] "u1" no_preferences))
            3600000 [loud_post] "u1" no_preferences)
     = Js.slice0 50
         (Js.sort by_score
            (scored new_engine 3600000 "u1" no_preferences [loud_post])).
Proof.
  assert (Hexpired : 3600000 <= 3600000 - 0) by lia.
  split; [apply new_engine_miss|]. split; [exact Hexpired|].
  exact (proj1 (generateFeed_expiry new_engine 0 3600000 [quiet_post]
                  [loud_post] "u1" no_preferences no_preferences
                  (new_engine_miss 0 "u1") Hexpired)).
Defined.

Lemma generateFeed_other_user_witness :
  "u2" <> "u1"
  /\ fst (generateFeed
            (snd (generateFeed new_engine 0 [quiet_post] "u1" no_preferences))
            5 [loud_post] "u2" no_preferences)
     = fst (generateFeed new_engine 5 [loud_post] "u2" no_preferences).
Proof.
  assert (Hother : "u2" <> "u1") by discriminate.
  split; [exact Hother|].
  exact (proj2 (generateFeed_other_user new_engine 0 5 [quiet_post]
                  [loud_post] "u1" "u2" no_preferences no_preferences
                  Hother)).
Defined.

Lemma clearCache_then_generateFeed_witness :
  "u1" <> ""
  /\ fst (generateFeed (clearCache (snd first_feed) (Some "u1")) 2000
                       [loud_post] "u1" no_preferences)
     = Js.slice0 50
         (Js.sort by_score
            (scored (snd first_feed) 2000 "u1" no_preferences [loud_post])).
Proof.
  assert (Hid : "u1" <> "") by discriminate.
  split; [exact Hid|].
  exact (clearCache_then_generateFeed (snd first_feed) 2000 [loud_post] "u1"
           no_preferences Hid).
Defined.

Lemma clearCache_scope_witness :
  "u1" <> "" /\ "u2" <> "u1"
  /\ feedCache (clearCache (snd first_feed) (Some "u1")) !! cacheKey_of "u1"
     = None
  /\ feedCache (clearCache (snd first_feed) (Some "")) = ∅.
Proof.
  assert (Hid : "u1" <> "") by discriminate.
  assert (Hother : "u2" <> "u1") by discriminate.
  split; [exact Hid|]. split; [exact Hother|].
  destruct (clearCache_scope (snd first_feed) "u1" "u2" Hid Hother)
    as (Hgone & _ & _ & Hall & _).
  split; [exact Hgone | exact Hall].
Defined.

Lemma quiet_sequel_same_score :
  calculatePostScore new_engine 0 quiet_sequel "u1" no_preferences
  = calculatePostScore new_engine 0 quiet_post "u1" no_preferences.
Proof. reflexivity. Defined.

Lemma generateFeed_keeps_order_witness :
  quiet_post <> quiet_sequel
  /\ (forall entry, ~ fresh_entry new_engine 0 "u1" entry)
  /\ descending score
       (scored new_engine 0 "u1" no_preferences [quiet_post; quiet_sequel])
  /\ descending score
       (scored new_engine 0 "u1" no_preferences [quiet_sequel; quiet_post])
  /\ map sp_post
       (fst (generateFeed new_engine 0 [quiet_post; quiet_sequel] "u1"
               no_preferences))
     = [quiet_post; quiet_sequel]
  /\ map sp_post
       (fst (generateFeed new_engine 0 [quiet_sequel; quiet_post] "u1"
               no_preferences))
     = [quiet_sequel; quiet_post].
Proof.
  assert (Hforth :
    descending score
      (scored new_engine 0 "u1" no_preferences [quiet_post; quiet_sequel])).
  { unfold descending, scored. cbn [map].
    apply SSorted_cons;
      [apply SSorted_cons; [apply SSorted_nil | apply List.Forall_nil]|].
    apply List.Forall_cons; [|apply List.Forall_nil].
    cbn [score]. rewrite quiet_sequel_same_score. apply Rle_refl. }
  assert (Hback :
    descending score
      (scored new_engine 0 "u1" no_preferences [quiet_sequel; quiet_post])).
  { unfold descending, scored. cbn [map].
    apply SSorted_cons;
      [apply SSorted_cons; [apply SSorted_nil | apply List.Forall_nil]|].
    apply List.Forall_cons; [|apply List.Forall_nil].
    cbn [score]. rewrite quiet_sequel_same_score. apply Rle_refl. }
  split; [discriminate|].
  split; [apply new_engine_miss|].
  split; [exact Hforth|]. split; [exact Hback|].
  rewrite (generateFeed_keeps_order new_engine 0 [quiet_post; quiet_sequel]
             "u1" no_preferences (new_engine_miss 0 "u1") Hforth).
  rewrite (generateFeed_keeps_order new_engine 0 [quiet_sequel; quiet_post]
             "u1" no_preferences (new_engine_miss 0 "u1") Hback).
  split; reflexivity.
Defined.

Lemma reader_elsewhere_warm : history reader_elsewhere "u1" <> [].
Proof. vm_compute. discriminate. Defined.

Lemma getRecommendedPosts_first_candidates_witness :
  history reader_elsewhere "u1" <> []
  /\ exists ranked : list ScoredPost,
       getRecommendedPosts reader_elsewhere 0 [quiet_post; loud_post] "u1"
                           (Some 1%nat)
       = inr ranked
       /\ Permutation (map sp_post ranked)
            (firstn 1 (candidates reader_elsewhere [quiet_post; loud_post]
                                  "u1"))
       /\ descending score ranked
       /\ Forall
            (fun r =>
               score r
               = calculatePostScore reader_elsewhere 0 (sp_post r) "u1"
                                    no_preferences)
            ranked
       /\ length ranked
          = Nat.min 1
              (length (candidates reader_elsewhere [quiet_post; loud_post]
                                  "u1")).
Proof.
  split; [exact reader_elsewhere_warm|].
  exact (getRecommendedPosts_first_candidates reader_elsewhere 0
           [quiet_post; loud_post] "u1" (Some 1%nat) reader_elsewhere_warm).
Defined.

Lemma getRecommendedPosts_engaged_elsewhere_witness :
  history reader_elsewhere "u1" <> []
  /\ Forall
       (fun p =>
          ~ In (id p) (map eng_postId (history reader_elsewhere "u1")))
       [nameless_post; quiet_post]
  /\ exists ranked : list ScoredPost,
       getRecommendedPosts reader_elsewhere 0 [nameless_post; quiet_post]
                           "u1" None
       = inr ranked
       /\ Permutation (map sp_post ranked)
            (firstn 10 (List.filter has_displayName
                                    [nameless_post; quiet_post]))
       /\ descending score ranked
       /\ Forall
            (fun r =>
               score r
               = calculatePostScore reader_elsewhere 0 (sp_post r) "u1"
                                    no_preferences)
            ranked.
Proof.
  assert (Helsewhere :
    Forall
      (fun p =>
         ~ In (id p) (map eng_postId (history reader_elsewhere "u1")))
      [nameless_post; quiet_post]).
  { rewrite reader_elsewhere_history.
    repeat constructor; cbn; intros [Heq|[]]; discriminate. }
  split; [exact reader_elsewhere_warm|]. split; [exact Helsewhere|].
  exact (getRecommendedPosts_engaged_elsewhere reader_elsewhere 0
           [nameless_post; quiet_post] "u1" None reader_elsewhere_warm
           Helsewhere).
Defined.

Lemma recordImpression_statistics_witness :
  md_deviceType no_metadata = None
  /\ Stats.totalImpressions
       (getStatistics (seen new_engine 1 "p1" "u1") "u1")
     = S (Stats.totalImpressions (getStatistics new_engine "u1")).
Proof.
  split; [reflexivity|].
  exact (proj1 (recordImpression_statistics new_engine 1 1280 offline_sink
                  "p1" "u1" no_metadata eq_refl)).
Defined.

Lemma testAlgorithmVariant_shared_cache_witness :
  (forall entry, ~ fresh_entry new_engine 0 "u1" entry)
  /\ 1000 - 0 < 3600000
  /\ fst (fst (testAlgorithmVariant
                 (snd (testAlgorithmVariant new_engine 0
                         [quiet_post; loud_post] "u1" None))
                 1000 [loud_post] "u1" (Some "diversity_focus")))
     = fst (fst (testAlgorithmVariant new_engine 0 [quiet_post; loud_post]
                   "u1" None)).
Proof.
  assert (Hage : 1000 - 0 < 3600000) by lia.
  split; [apply new_engine_miss|]. split; [exact Hage|].
  exact (proj1 (testAlgorithmVariant_shared_cache new_engine 0 1000
                  [quiet_post; loud_post] [loud_post] "u1"
                  (new_engine_miss 0 "u1") Hage)).
Defined.

Lemma record_frame_witness :
  "u2" <> "u1"
  /\ feedCache
       (snd (fst (recordEngagement (snd first_feed) 1500 offline_sink
                    "erin_1" "u1" "like" no_metadata)))
     = feedCache (snd first_feed).
Proof.
  assert (Hother : "u2" <> "u1") by discriminate.
  split; [exact Hother|].
  destruct (record_frame (snd first_feed) 1500 1280 offline_sink
              offline_sink "erin_1" "u1" "like" no_metadata "u2" Hother)
    as (_ & _ & _ & Hcache).
  exact Hcache.
Defined.

Lemma histories_append_only_witness :
  steps (liked new_engine 1 "alice_1" "u1") reader_of_two
  /\ exists engagements impressions,
       history reader_of_two "u1"
       = history (liked new_engine 1 "alice_1" "u1") "u1" ++ engagements
       /\ impression_history reader_of_two "u1"
          = impression_history (liked new_engine 1 "alice_1" "u1") "u1"
            ++ impressions.
Proof.
  assert (Hrun : steps (liked new_engine 1 "alice_1" "u1") reader_of_two).
  { exact (steps_more _ _ _ (steps_none _)
             (step_recordEngagement (liked new_engine 1 "alice_1" "u1") 2
                offline_sink "bob_1" "u1" "like" no_metadata)). }
  split; [exact Hrun|].
  exact (histories_append_only _ _ "u1" Hrun).
Defined.

(** ** Shared arrays *)

Lemma shared_read_write a items st :
  Shared.read (Shared.write a items st) a = items.
Proof. unfold Shared.read, Shared.write. cbn. now rewrite lookup_insert_eq. Qed.

Lemma shared_read_write_ne a b items st :
  a <> b -> Shared.read (Shared.write a items st) b = Shared.read st b.
Proof.
  intros Hne. unfold Shared.read, Shared.write. cbn.
  now rewrite lookup_insert_ne.
Qed.

Lemma shared_read_alloc items st :
  Shared.read (snd (Shared.alloc items st)) (Shared.next st) = items.
Proof. unfold Shared.read, Shared.alloc. cbn. now rewrite lookup_insert_eq. Qed.

Lemma shared_read_alloc_ne items st b :
  b <> Shared.next st ->
  Shared.read (snd (Shared.alloc items st)) b = Shared.read st b.
Proof.
  intros Hne. unfold Shared.read, Shared.alloc. cbn.
  now rewrite lookup_insert_ne by congruence.
Qed.

Lemma shared_generateFeed_hit st now allPosts userId preferences a :
  Shared.served st now userId = Some a ->
  Shared.generateFeed st now allPosts userId preferences = (a, st).
Proof. intros Hserved. unfold Shared.generateFeed. now rewrite Hserved. Qed.

Lemma shared_generateFeed_miss st now allPosts userId preferences :
  Shared.served st now userId = None ->
  Shared.generateFeed st now allPosts userId preferences
  = (Shared.next st,
     Shared.mkState (Shared.impressions st) (Shared.engagements st)
       (<[cacheKey_of userId := Shared.mkEntry (Shared.next st) now]>
          (Shared.cache st))
       (<[Shared.next st :=
            shared_ranking st now (Shared.read st allPosts) userId
                           preferences]> (Shared.arrays st))
       (S (Shared.next st))).
Proof. intros Hserved. unfold Shared.generateFeed. now rewrite Hserved. Qed.

Lemma shared_engagement_heavy st now allPosts userId :
  Shared.testAlgorithmVariant st now allPosts userId
                              (Some "engagement_heavy")
  = Shared.alloc
      (Js.slice0 50
         (Js.sort Shared.by_engagementScore (Shared.read st allPosts)))
      (Shared.write allPosts
         (Js.sort Shared.by_engagementScore (Shared.read st allPosts)) st).
Proof.
  unfold Shared.testAlgorithmVariant. cbv zeta.
  rewrite !shared_read_write. reflexivity.
Qed.

Lemma shared_recency_heavy st now allPosts userId :
  Shared.testAlgorithmVariant st now allPosts userId (Some "recency_heavy")
  = Shared.alloc
      (Js.slice0 50 (Js.sort Shared.by_createdAt (Shared.read st allPosts)))
      (Shared.write allPosts
         (Js.sort Shared.by_createdAt (Shared.read st allPosts)) st).
Proof.
  unfold Shared.testAlgorithmVariant. cbv zeta.
  rewrite !shared_read_write. reflexivity.
Qed.

Lemma shared_sorted_in_place st allPosts (cmp : Shared.Item -> Shared.Item -> R) :
  (allPosts < Shared.next st)%nat ->
  let sorted := Js.sort cmp (Shared.read st allPosts) in
  let r := Shared.alloc (Js.slice0 50 sorted)
                        (Shared.write allPosts sorted st) in
  Shared.read (snd r) allPosts = sorted
  /\ Shared.read (snd r) (fst r) = firstn 50 (Shared.read (snd r) allPosts)
  /\ fst r <> allPosts
  /\ Shared.cache (snd r) = Shared.cache st
  /\ Shared.impressions (snd r) = Shared.impressions st
  /\ Shared.engagements (snd r) = Shared.engagements st
  /\ (forall other,
        other <> allPosts -> (other < Shared.next st)%nat ->
        Shared.read (snd r) other = Shared.read st other).
Proof.
  intros Hvalid sorted r. subst r.
  assert (Hhere :
    Shared.read
      (snd (Shared.alloc (Js.slice0 50 sorted)
              (Shared.write allPosts sorted st))) allPosts = sorted).
  { rewrite shared_read_alloc_ne; [apply shared_read_write|].
    cbn [Shared.next Shared.write]. lia. }
  split; [exact Hhere|]. split; [|split; [|split; [|split; [|split]]]];
    try reflexivity.
  - rewrite Hhere. cbn [fst Shared.alloc].
    exact (shared_read_alloc (Js.slice0 50 sorted)
             (Shared.write allPosts sorted st)).
  - cbn [fst Shared.alloc Shared.next Shared.write]. lia.
  - intros other Hother Hold.
    rewrite shared_read_alloc_ne by (cbn [Shared.next Shared.write]; lia).
    now apply shared_read_write_ne.
Qed.

(** X24. The variants engagement_heavy and recency_heavy sort the array of
    the caller in place, by descending engagement score and by descending
    creation time, and return a new array with its first 50 elements. They
    change no other array, no history, and no address or timestamp of the
    cache: a cached feed is reordered exactly when it is the array the
    caller passes. *)
Theorem testAlgorithmVariant_sorts_in_place
    (st : Shared.State) (now : Z) (allPosts : nat) (userId : string)
    (Hvalid : (allPosts < Shared.next st)%nat) :
  let sorts (variant : string) (key : Shared.Item -> R) :=
    let r :=
      Shared.testAlgorithmVariant st now allPosts userId (Some variant) in
    Permutation (Shared.read (snd r) allPosts) (Shared.read st allPosts)
    /\ descending key (Shared.read (snd r) allPosts)
    /\ Shared.read (snd r) (fst r)
       = firstn 50 (Shared.read (snd r) allPosts)
    /\ fst r <> allPosts
    /\ Shared.cache (snd r) = Shared.cache st
    /\ Shared.impressions (snd r) = Shared.impressions st
    /\ Shared.engagements (snd r) = Shared.engagements st
    /\ (forall other,
          other <> allPosts -> (other < Shared.next st)%nat ->
          Shared.read (snd r) other = Shared.read st other) in
  sorts "engagement_heavy" item_engagement
  /\ sorts "recency_heavy" item_created.
Proof.
  intros sorts. subst sorts. cbv beta zeta. split.
  - rewrite shared_engagement_heavy.
    destruct (shared_sorted_in_place st allPosts Shared.by_engagementScore
                Hvalid) as (Hhere & Hrest).
    rewrite Hhere in *. split; [apply sort_perm|].
    split; [apply (sort_descending item_engagement)|].
    exact Hrest.
  - rewrite shared_recency_heavy.
    destruct (shared_sorted_in_place st allPosts Shared.by_createdAt
                Hvalid) as (Hhere & Hrest).
    rewrite Hhere in *. split; [apply sort_perm|].
    split; [apply (sort_descending item_created)|].
    exact Hrest.
Qed.

Lemma shared_ranking_ranked st now items userId preferences :
  descending Shared.score_of (shared_ranking st now items userId preferences)
  /\ (length (shared_ranking st now items userId preferences) <= 50)%nat.
Proof.
  unfold shared_ranking. split; [|apply slice0_length_le].
  apply descending_slice0, (sort_descending Shared.score_of).
Qed.

(** X13. The array [generateFeed] returns is the array of the cache entry.
    When the caller passes it to the variant engagement_heavy, the cached
    feed itself is reordered: the next [generateFeed] of the user within
    3600000 ms returns the same array, which now holds the ranked posts,
    50 at most, in descending order of engagement score, whatever the
    order of their scores. *)
Theorem testAlgorithmVariant_reorders_cached_feed
    (st : Shared.State) (now now1 now' : Z) (allPosts allPosts' : nat)
    (userId caller : string) (preferences preferences' : Preferences)
    (Hmiss : Shared.served st now userId = None)
    (Hage : now' - now < 3600000) :
  let first := Shared.generateFeed st now allPosts userId preferences in
  let ranked := Shared.read (snd first) (fst first) in
  let variant :=
    Shared.testAlgorithmVariant (snd first) now1 (fst first) caller
                                (Some "engagement_heavy") in
  let second :=
    Shared.generateFeed (snd variant) now' allPosts' userId preferences' in
  ranked = shared_ranking st now (Shared.read st allPosts) userId preferences
  /\ descending Shared.score_of ranked
  /\ fst second = fst first
  /\ Shared.read (snd second) (fst second)
     = Js.sort Shared.by_engagementScore ranked
  /\ Permutation (Shared.read (snd second) (fst second)) ranked
  /\ descending item_engagement (Shared.read (snd second) (fst second))
  /\ (length (Shared.read (snd second) (fst second)) <= 50)%nat.
Proof.
  intros first ranked variant second. subst first ranked variant second.
  rewrite (shared_generateFeed_miss _ _ _ _ _ Hmiss). cbn [fst snd].
  set (items := shared_ranking st now (Shared.read st allPosts) userId
                               preferences).
  pose proof (shared_ranking_ranked st now (Shared.read st allPosts) userId
                preferences) as [Hdesc Hlen]. fold items in Hdesc, Hlen.
  set (st1 := Shared.mkState _ _ _ _ _).
  assert (Hread : Shared.read st1 (Shared.next st) = items).
  { unfold Shared.read, st1. cbn [Shared.arrays].
    now rewrite lookup_insert_eq. }
  rewrite Hread. rewrite shared_engagement_heavy, Hread.
  set (sorted := Js.sort Shared.by_engagementScore items).
  set (st3 := snd (Shared.alloc _ _)).
  assert (Hserved : Shared.served st3 now' userId = Some (Shared.next st)).
  { unfold Shared.served, st3, st1.
    cbn [snd Shared.alloc Shared.write Shared.cache].
    rewrite lookup_insert_eq. cbn [Shared.timestamp Shared.feed].
    destruct (Z.ltb_spec (now' - now) (impressionCacheTTL config)) as [_|Hge];
      [reflexivity|]. cbn in Hge. lia. }
  rewrite (shared_generateFeed_hit _ _ _ _ _ _ Hserved). cbn [fst snd].
  assert (Hsorted : Shared.read st3 (Shared.next st) = sorted).
  { unfold st3. rewrite shared_read_alloc_ne; [apply shared_read_write|].
    unfold st1. cbn [Shared.next Shared.write]. lia. }
  rewrite Hsorted.
  split; [reflexivity|]. split; [exact Hdesc|]. split; [reflexivity|].
  split; [reflexivity|]. split; [apply sort_perm|].
  split; [apply (sort_descending item_engagement)|].
  unfold sorted. now rewrite sort_length.
Qed.

Lemma sort_pair {A : Type} (cmp : A -> A -> R) (a b : A) :
  Js.sort cmp [a; b] = if Rlt_dec 0 (cmp a b) then [b; a] else [a; b].
Proof. reflexivity. Qed.

Lemma new_one_score :
  (0.9 < calculatePostScore (Shared.histories one_array) 172800000 new_one
                            "u1" no_preferences)%R.
Proof.
  rewrite post_score_formula.
  rewrite (engagement_score_of_likes new_one 1) by (reflexivity || lia).
  rewrite (recency_at_creation 172800000 new_one) by reflexivity.
  pose proof (diversity_bounds (Shared.histories one_array) new_one "u1").
  cbn [Js.truthy boostRecent no_preferences]. lra.
Qed.

Lemma old_one_engagement : calculateEngagementScore old_one = 1.1%R.
Proof.
  rewrite (engagement_score_of_counts old_one 9 1 0) by reflexivity.
  unfold num. cbn [Z.of_N].
  replace (9 + 1 + 0)%R with 10%R by lra.
  rewrite Rmax_right by lra. lra.
Qed.

Lemma old_one_score :
  (calculatePostScore (Shared.histories one_array) 172800000 old_one "u1"
                      no_preferences < 0.9)%R.
Proof.
  rewrite post_score_formula, old_one_engagement.
  rewrite (recency_after_48_hours 172800000 old_one) by reflexivity.
  pose proof (diversity_bounds (Shared.histories one_array) old_one "u1").
  pose proof exp_minus_2_small.
  cbn [Js.truthy boostRecent no_preferences]. lra.
Qed.

Lemma old_item_below_new_item :
  (Shared.score_of old_item < Shared.score_of new_item)%R.
Proof.
  pose proof new_one_score as Hnew. pose proof old_one_score as Hold.
  change (Shared.score_of old_item)
    with (calculatePostScore (Shared.histories one_array) 172800000 old_one
            "u1" no_preferences).
  change (Shared.score_of new_item)
    with (calculatePostScore (Shared.histories one_array) 172800000 new_one
            "u1" no_preferences).
  lra.
Qed.

Lemma one_array_ranking :
  shared_ranking one_array 172800000 (Shared.read one_array 0) "u1"
                 no_preferences
  = [new_item; old_item].
Proof.
  unfold shared_ranking.
  change (Shared.read one_array 0)
    with [Shared.mkItem new_one None; Shared.mkItem old_one None].
  cbn [map Shared.item_post]. fold new_item old_item.
  rewrite sort_pair.
  destruct (Rlt_dec 0 (Shared.by_score new_item old_item)) as [Hlt|_];
    [|reflexivity].
  exfalso. unfold Shared.by_score in Hlt.
  pose proof old_item_below_new_item. lra.
Qed.

Lemma one_array_resorted :
  Js.sort Shared.by_engagementScore [new_item; old_item]
  = [old_item; new_item].
Proof.
  rewrite sort_pair.
  destruct (Rlt_dec 0 (Shared.by_engagementScore new_item old_item))
    as [_|Hge]; [reflexivity|].
  exfalso. apply Hge. unfold Shared.by_engagementScore.
  cbn [new_item old_item Shared.item_post].
  rewrite old_one_engagement.
  rewrite (engagement_score_of_likes new_one 1) by (reflexivity || lia).
  lra.
Qed.

Lemma testAlgorithmVariant_sorts_in_place_witness :
  (0 < Shared.next one_array)%nat
  /\ Permutation
       (Shared.read
          (snd (Shared.testAlgorithmVariant one_array 5 0 "u1"
                  (Some "recency_heavy"))) 0)
       (Shared.read one_array 0).
Proof.
  assert (Hvalid : (0 < Shared.next one_array)%nat) by (cbn; lia).
  split; [exact Hvalid|].
  destruct (testAlgorithmVariant_sorts_in_place one_array 5 0 "u1" Hvalid)
    as [_ [Hperm _]].
  exact Hperm.
Defined.

Lemma testAlgorithmVariant_reorders_cached_feed_witness :
  Shared.served one_array 172800000 "u1" = None
  /\ 172800002 - 172800000 < 3600000
  /\ Shared.read
       (snd (Shared.generateFeed
               (snd (Shared.testAlgorithmVariant
                       (snd (Shared.generateFeed one_array 172800000 0 "u1"
                               no_preferences))
                       172800001
                       (fst (Shared.generateFeed one_array 172800000 0 "u1"
                               no_preferences))
                       "u1" (Some "engagement_heavy")))
               172800002 0 "u1" no_preferences))
       (fst (Shared.generateFeed
               (snd (Shared.testAlgorithmVariant
                       (snd (Shared.generateFeed one_array 172800000 0 "u1"
                               no_preferences))
                       172800001
                       (fst (Shared.generateFeed one_array 172800000 0 "u1"
                               no_preferences))
                       "u1" (Some "engagement_heavy")))
               172800002 0 "u1" no_preferences))
     = [old_item; new_item]
  /\ (Shared.score_of old_item < Shared.score_of new_item)%R.
Proof.
  assert (Hage : 172800002 - 172800000 < 3600000) by lia.
  split; [reflexivity|]. split; [exact Hage|].
  split; [|exact old_item_below_new_item].
  destruct (testAlgorithmVariant_reorders_cached_feed one_array 172800000
              172800001 172800002 0 0 "u1" "u1" no_preferences
              no_preferences eq_refl Hage)
    as (Hranked & _ & _ & Hread & _).
  rewrite Hread, Hranked, one_array_ranking. exact one_array_resorted.
Defined.
